(** * geextract.sar.sentinel_one: a shallow embedding

    The module has two entry points: [get_date], which reads acquisition
    dates out of a Sentinel-1 GRD product identifier with a regular
    expression, and [ts_extract], which validates its parameters, builds a
    query for the Earth Engine platform, executes it and reshapes the
    response.

    A Python [str] is a Rocq [string]; a character stands for the code point
    of the same number (code points below 256). *)

From Stdlib Require Import ZArith NArith List Ascii String Bool Lia.
From stdpp Require Import base option list gmap strings pretty.

Open Scope string_scope.
Open Scope list_scope.

(** ** Exceptions and results *)

Inductive exn : Type :=
| ValueError (msg : string)
| IndexError (msg : string)
| KeyError (key : string)
| TypeError (msg : string)
| EEException (msg : string)          (* ee.EEException *)
| OtherException (cls msg : string).  (* any other exception class *)

Inductive result (A : Type) : Type :=
| Ok (a : A)
| Raise (e : exn).
Arguments Ok {A} a.
Arguments Raise {A} e.

Definition is_Some_b {A : Type} (o : option A) : bool :=
  match o with Some _ => true | None => false end.

Definition bindR {A B : Type} (r : result A) (k : A -> result B) : result B :=
  match r with
  | Ok a => k a
  | Raise e => Raise e
  end.

Declare Scope result_scope.
Delimit Scope result_scope with result.
Notation "x <-- c ;; k" := (bindR c (fun x => k))
  (at level 100, c at next level, right associativity) : result_scope.

(** ** The [re] module: a backtracking matcher

    Only the constructs that the patterns of this module use. A match is
    tried at a position of the subject; the matcher returns every way the
    pattern can match there, in the order in which a backtracking engine
    tries them, so the head of the list is the match [re] reports. *)

Module Re.

Inductive regex : Type :=
| Chr (c : ascii)                     (* a literal character *)
| Class (p : ascii -> bool)           (* \d, \w, [0-2], ... *)
| Cat (r1 r2 : regex)                 (* r1 r2 *)
| Alt (r1 r2 : regex)                 (* r1|r2 *)
| Rep (n : nat) (r : regex)           (* r{n} *)
| Group (name : string) (r : regex)   (* (?P<name>r) *)
| Eps.

(** [\d] for code points below 256: the decimal digits 0-9. *)
Definition is_digit (c : ascii) : bool :=
  let n := N_of_ascii c in ((48 <=? n) && (n <=? 57))%N.

(** [\w] for code points below 256: alphanumeric characters and the
    underscore. Above ASCII these are the letters of Latin-1 (all of
    U+00C0..U+00FF but the signs U+00D7 and U+00F7, and U+00AA, U+00B5,
    U+00BA) and the numeric characters U+00B2, U+00B3, U+00B9,
    U+00BC..U+00BE. *)
Definition is_word (c : ascii) : bool :=
  let n := N_of_ascii c in
  (is_digit c
   || ((65 <=? n) && (n <=? 90)) || ((97 <=? n) && (n <=? 122))
   || (n =? 95)
   || (n =? 170) || (n =? 178) || (n =? 179) || (n =? 181)
   || (n =? 185) || (n =? 186)
   || ((188 <=? n) && (n <=? 190))
   || ((192 <=? n) && (n <=? 214))
   || ((216 <=? n) && (n <=? 246))
   || ((248 <=? n) && (n <=? 255)))%N.

(** Named groups that took part in a match, with their spans. *)
Definition captures : Type := list (string * (nat * nat)).

Fixpoint rmatch (r : regex) (s : string) (i : nat) : list (captures * nat) :=
  match r with
  | Chr c =>
      match String.get i s with
      | Some c' => if Ascii.eqb c c' then [([], S i)] else []
      | None => []
      end
  | Class p =>
      match String.get i s with
      | Some c' => if p c' then [([], S i)] else []
      | None => []
      end
  | Cat r1 r2 =>
      flat_map (fun '(g1, j) =>
                  List.map (fun '(g2, k) => (g1 ++ g2, k)) (rmatch r2 s j))
               (rmatch r1 s i)
  | Alt r1 r2 => rmatch r1 s i ++ rmatch r2 s i
  | Rep n r1 =>
      (fix rep (n : nat) (i : nat) : list (captures * nat) :=
         match n with
         | O => [([], i)]
         | S n' =>
             flat_map (fun '(g1, j) =>
                         List.map (fun '(g2, k) => (g1 ++ g2, k)) (rep n' j))
                      (rmatch r1 s i)
         end) n i
  | Group name r1 =>
      List.map (fun '(g, j) => ((name, (i, j)) :: g, j)) (rmatch r1 s i)
  | Eps => [([], i)]
  end.

(** A match object: the subject, the span of the whole match, the groups. *)
Record match_obj : Type := MatchObj {
  subject : string;
  m_start : nat;
  m_end : nat;
  groups : captures
}.

(** [pattern.match(s)]: a match at position 0 only. *)
Definition match_ (p : regex) (s : string) : option match_obj :=
  match rmatch p s 0 with
  | (g, j) :: _ => Some (MatchObj s 0 j g)
  | [] => None
  end.

(** [pattern.search(s)]: the first position, from the left, where the
    pattern matches; positions 0 .. len(s) are tried. *)
Fixpoint search_at (p : regex) (s : string) (starts : list nat)
  : option match_obj :=
  match starts with
  | [] => None
  | i :: rest =>
      match rmatch p s i with
      | (g, j) :: _ => Some (MatchObj s i j g)
      | [] => search_at p s rest
      end
  end.

Definition search (p : regex) (s : string) : option match_obj :=
  search_at p s (seq 0 (S (String.length s))).

Fixpoint lookup_group (name : string) (g : captures) : option (nat * nat) :=
  match g with
  | [] => None
  | (n, sp) :: rest => if String.eqb n name then Some sp else lookup_group name rest
  end.

(** [m.group(name)]: the text of a named group ([IndexError] when the
    pattern has no such group). *)
Definition group (m : match_obj) (name : string) : result string :=
  match lookup_group name (groups m) with
  | Some (a, b) => Ok (String.substring a (b - a) (subject m))
  | None => Raise (IndexError "no such group")
  end.

(** Literal text and n-ary forms. *)
Fixpoint lit (s : string) : regex :=
  match s with
  | EmptyString => Eps
  | String c EmptyString => Chr c
  | String c s' => Cat (Chr c) (lit s')
  end.

Fixpoint cat (l : list regex) : regex :=
  match l with
  | [] => Eps
  | [r] => r
  | r :: l' => Cat r (cat l')
  end.

Fixpoint alt (r : regex) (l : list regex) : regex :=
  match l with
  | [] => r
  | r' :: l' => Alt r (alt r' l')
  end.

Definition digit : regex := Class is_digit.
Definition word : regex := Class is_word.
Definition range (lo hi : ascii) : regex :=
  Class (fun c => ((N_of_ascii lo <=? N_of_ascii c)
                   && (N_of_ascii c <=? N_of_ascii hi))%N).

End Re.

(** ** The [datetime] module: dates, and [strptime] for the format used here *)

Record date : Type := Date { year : Z; month : Z; day : Z }.

Record datetime : Type := Datetime {
  dt_year : Z; dt_month : Z; dt_day : Z;
  dt_hour : Z; dt_minute : Z; dt_second : Z; dt_microsecond : Z
}.

(** [datetime.date()] *)
Definition date_of (d : datetime) : date :=
  Date (dt_year d) (dt_month d) (dt_day d).

Definition is_leap (y : Z) : bool :=
  ((y mod 4 =? 0) && (negb (y mod 100 =? 0) || (y mod 400 =? 0)))%Z.

Definition days_in_month (y m : Z) : Z :=
  (if m =? 2 then (if is_leap y then 29 else 28)
   else if (m =? 4) || (m =? 6) || (m =? 9) || (m =? 11) then 30
   else 31)%Z.

(** The checks of the [date] and [datetime] constructors. *)
Definition check_date_fields (y m d : Z) : result unit :=
  if negb ((1 <=? y) && (y <=? 9999))%Z
  then Raise (ValueError ("year " ++ pretty y ++ " is out of range"))
  else if negb ((1 <=? m) && (m <=? 12))%Z
  then Raise (ValueError "month must be in 1..12")
  else if negb ((1 <=? d) && (d <=? days_in_month y m))%Z
  then Raise (ValueError "day is out of range for month")
  else Ok tt.

Definition check_time_fields (h mi s : Z) : result unit :=
  if negb ((0 <=? h) && (h <=? 23))%Z
  then Raise (ValueError "hour must be in 0..23")
  else if negb ((0 <=? mi) && (mi <=? 59))%Z
  then Raise (ValueError "minute must be in 0..59")
  else if negb ((0 <=? s) && (s <=? 59))%Z
  then Raise (ValueError "second must be in 0..59")
  else Ok tt.

(** [int(s)] on a string of decimal digits. *)
Fixpoint int_digits (acc : Z) (s : string) : Z :=
  match s with
  | EmptyString => acc
  | String c s' => int_digits (10 * acc + (Z.of_N (N_of_ascii c) - 48)) s'
  end.
Definition int_of (s : string) : Z := int_digits 0 s.

Module Strptime.
Import Re.

(** The format of this module, and the regular expression that
    [strptime] builds from it: one group per directive, the other
    characters literally, letters in either case. *)
Definition fmt : string := "%Y%m%dT%H%M%S".

Definition re_Y : regex := Group "Y" (cat [digit; digit; digit; digit]).
Definition re_m : regex :=
  Group "m" (alt (Cat (Chr "1") (range "0" "2"))
                 [Cat (Chr "0") (range "1" "9"); range "1" "9"]).
Definition re_d : regex :=
  Group "d" (alt (Cat (Chr "3") (range "0" "1"))
                 [Cat (range "1" "2") digit; Cat (Chr "0") (range "1" "9");
                  range "1" "9"; Cat (Chr " ") (range "1" "9")]).
Definition re_H : regex :=
  Group "H" (alt (Cat (Chr "2") (range "0" "3"))
                 [Cat (range "0" "1") digit; digit]).
Definition re_M : regex :=
  Group "M" (alt (Cat (range "0" "5") digit) [digit]).
Definition re_S : regex :=
  Group "S" (alt (Cat (Chr "6") (range "0" "1"))
                 [Cat (range "0" "5") digit; digit]).
Definition re_T : regex := Alt (Chr "T") (Chr "t").

Definition format_regex : regex :=
  cat [re_Y; re_m; re_d; re_T; re_H; re_M; re_S].

(** [repr] of a string of printable characters without quotes. *)
Definition repr (s : string) : string := "'" ++ s ++ "'".

(** [datetime.strptime(data_string, '%Y%m%dT%H%M%S')] *)
Definition strptime (data_string : string) : result datetime :=
  match match_ format_regex data_string with
  | None =>
      Raise (ValueError ("time data " ++ repr data_string
                         ++ " does not match format " ++ repr fmt))
  | Some found =>
      if negb (Nat.eqb (String.length data_string) (m_end found))
      then Raise (ValueError
                    ("unconverted data remains: "
                     ++ String.substring (m_end found)
                          (String.length data_string - m_end found)
                          data_string))
      else
        (Y <-- group found "Y";; m <-- group found "m";;
         d <-- group found "d";; H <-- group found "H";;
         M <-- group found "M";; S <-- group found "S";;
         _ <-- check_date_fields (int_of Y) (int_of m) (int_of d);;
         _ <-- check_time_fields (int_of H) (int_of M) (int_of S);;
         Ok (Datetime (int_of Y) (int_of m) (int_of d)
                      (int_of H) (int_of M) (int_of S) 0))%result
  end.

End Strptime.

(** ** [get_date] *)

(** A line break followed by the eight spaces of the indentation: the text
    between two lines of the pattern. The pattern is compiled without
    flags, so this text is part of it. *)
Definition nl : string := String "010" "".
Definition indent : string := nl ++ "        ".

(** [p0], as [re.compile] reads the pattern text (lines 51-63). *)
Definition p0 : Re.regex :=
  Re.cat
    [ Re.lit indent;
      Re.Group "sensor" (Re.alt (Re.lit "S1A") [Re.lit "S1B"]); Re.lit "_";
      Re.lit indent;
      Re.Group "acquisition_mode"
        (Re.alt (Re.lit "IW") [Re.lit "SW"; Re.lit "SM"]); Re.lit "_GRD";
      Re.lit indent;
      Re.Group "resolution" (Re.alt (Re.lit "M") [Re.lit "H"]); Re.lit "_";
      Re.lit indent;
      Re.Group "processing_level" (Re.Rep 1 Re.digit); Re.lit "SDV_";
      Re.lit indent;
      Re.Group "start_date" (Re.Rep 8 Re.digit); Re.lit "T";
      Re.lit indent;
      Re.Group "start_time" (Re.Rep 6 Re.digit); Re.lit "_";
      Re.lit indent;
      Re.Group "end_date" (Re.Rep 8 Re.digit); Re.lit "T";
      Re.lit indent;
      Re.Group "end_time" (Re.Rep 6 Re.digit); Re.lit "_";
      Re.lit indent;
      Re.Group "absolute_orbit_number" (Re.Rep 6 Re.word); Re.lit "_";
      Re.lit indent;
      Re.Group "mission_data_take_id" (Re.Rep 6 Re.word); Re.lit "_";
      Re.lit indent;
      Re.Group "product_unique_id" (Re.Rep 4 Re.word);
      Re.lit indent ].

(** What [get_date] returns: one date, or the pair (start, end). *)
Inductive dates : Type :=
| Start (start_d : date)
| StartEnd (start_d end_d : date).

Definition get_date (filename : string) (start_only : bool) : result dates :=
  match Re.search p0 filename with
  | Some m =>
      (sd <-- Re.group m "start_date";;
       st <-- Re.group m "start_time";;
       start_dt <-- Strptime.strptime (sd ++ "T" ++ st);;
       let start_d := date_of start_dt in
       if negb start_only then
         ed <-- Re.group m "end_date";;
         et <-- Re.group m "end_time";;
         end_dt <-- Strptime.strptime (ed ++ "T" ++ et);;
         Ok (StartEnd start_d (date_of end_dt))
       else Ok (Start start_d))%result
  | None => Raise (ValueError "Unknown pattern")
  end.

(** ** Module constants *)

Definition SATELLITES : list string := ["S1A"; "S1B"].

(** Interferometric Wide swath (IW), Extra-Wide swath (EW), StripMap (SM) *)
Definition MODES : list string := ["IW"; "EW"; "SM"].

Definition POLARIZATIONS : list string := ["VV"; "VH"].

Definition ORBITS : list string := ["ASCENDING"; "DESCENDING"].

(** [class Orbit(Enum)] *)
Inductive Orbit : Type := ASCENDING | DESCENDING.

Definition Orbit_value (o : Orbit) : Z :=
  match o with ASCENDING => 0 | DESCENDING => 1 end.

Definition Orbit_name (o : Orbit) : string :=
  match o with ASCENDING => "ASCENDING" | DESCENDING => "DESCENDING" end.

(** [Orbit(v)]: the member with value [v]. *)
Definition Orbit_call (v : Z) : result Orbit :=
  if (v =? Orbit_value ASCENDING)%Z then Ok ASCENDING
  else if (v =? Orbit_value DESCENDING)%Z then Ok DESCENDING
  else Raise (ValueError (pretty v ++ " is not a valid Orbit")).

(** [x in l] on strings and on integers. *)
Definition str_in (x : string) (l : list string) : bool :=
  existsb (String.eqb x) l.
Definition int_in (x : Z) (l : list Z) : bool :=
  existsb (Z.eqb x) l.

(** [str(l)] of a list of strings, as an f-string prints it. *)
Fixpoint str_items (l : list string) : string :=
  match l with
  | [] => ""
  | [x] => Strptime.repr x
  | x :: l' => Strptime.repr x ++ ", " ++ str_items l'
  end.
Definition str_list (l : list string) : string := "[" ++ str_items l ++ "]".

Definition unknown_mode (mode : string) : string :=
  "Unknown mode '" ++ mode ++ "' (Must be one of " ++ str_list MODES ++ ")".
Definition unknown_polarization (p : string) : string :=
  "Unknown polarization '" ++ p ++ "' (Must be one of "
  ++ str_list POLARIZATIONS ++ ")".
Definition unknown_orbit (orbit : Z) : string :=
  "Unknown orbit type '" ++ pretty orbit ++ "' (Must be one of "
  ++ str_list ORBITS ++ " where 0 -> ASCENDING, 1 -> DESCENDING)".
Definition unknown_stats : string :=
  "Unknown spatial aggregation function. Must be one of mean, median, max, or min".
Definition no_data : string :=
  "No data found for these parameters. Please change the orbit type or the coordinates.".

(** The [polar] argument: [None], a list, or a single value. *)
Inductive polar_val : Type :=
| PolarNone
| PolarList (l : list string)
| PolarStr (p : string).

(** ** Input checks of [ts_extract] (lines 125-145) *)

Definition check_mode (mode : string) : result unit :=
  if negb (str_in mode MODES) then Raise (ValueError (unknown_mode mode))
  else Ok tt.

(** The loop over a list of polarizations: the first foreign element raises. *)
Fixpoint check_polar_list (l : list string) : result unit :=
  match l with
  | [] => Ok tt
  | p :: l' =>
      if negb (str_in p POLARIZATIONS)
      then Raise (ValueError (unknown_polarization p))
      else check_polar_list l'
  end.

Definition check_polar (polar : polar_val) : result (list string) :=
  match polar with
  | PolarNone => Ok POLARIZATIONS
  | PolarList l => (_ <-- check_polar_list l;; Ok l)%result
  | PolarStr p =>
      (* To have cleaner code once building GEE query *)
      Ok [p]
  end.

Definition check_orbit (orbit : option Z) : result (option string) :=
  match orbit with
  | Some o =>
      if negb (int_in o [0; 1]%Z) then Raise (ValueError (unknown_orbit o))
      else (m <-- Orbit_call o;; Ok (Some (Orbit_name m)))%result
  | None => Ok None
  end.

(** ** Python values, the heap and the world

    Numbers of type [float] (coordinates, radius, band values) are never
    computed on: their type is a parameter. *)

Set Warnings "-register-all".

Section Extract.

Variable number : Type.

(** Values decoded from JSON, and the [feature] argument. *)
Inductive pyval : Type :=
| PNone
| PBool (b : bool)
| PInt (z : Z)
| PFloat (x : number)
| PStr (s : string)
| PList (l : list pyval)
| PDict (d : gmap string pyval).

(** [v[k]] with a string key. *)
Definition getitem (v : pyval) (k : string) : result pyval :=
  match v with
  | PDict d =>
      match d !! k with
      | Some x => Ok x
      | None => Raise (KeyError k)
      end
  | PStr _ => Raise (TypeError "string indices must be integers")
  | PList _ => Raise (TypeError "list indices must be integers or slices, not str")
  | PNone => Raise (TypeError "'NoneType' object is not subscriptable")
  | PBool _ => Raise (TypeError "'bool' object is not subscriptable")
  | PInt _ => Raise (TypeError "'int' object is not subscriptable")
  | PFloat _ => Raise (TypeError "'float' object is not subscriptable")
  end.

(** *** The client library [ee]: the objects a query is built from

    Building them is local; [getInfo] sends the request. *)

Inductive geometry : Type :=
| Geometry_Polygon (coords : pyval)
| Geometry_Point (lon lat : option number)
| buffer (g : geometry) (distance : option number).

Inductive ee_filter : Type :=
| Filter_eq (name value : string).

Inductive reducer : Type :=
| Reducer_mean | Reducer_median | Reducer_max | Reducer_min.

Inductive image_collection : Type :=
| ImageCollection (name : string)
| filterDate (ic : image_collection) (start opt_end : datetime)
| filter_ (ic : image_collection) (f : ee_filter)
| filterBounds (ic : image_collection) (g : geometry)
| select (ic : image_collection) (selectors : list string).

(** The two computations whose [getInfo()] is called:
    [ic.map(_reduce_region)], where [_reduce_region(image)] is
    [ee.Feature(None, image.reduceRegion(fun, geometry, 10))], and
    [ic.getRegion(geometry, 10)]. *)
Inductive computed : Type :=
| map_reduce_region (ic : image_collection) (fun_ : reducer)
    (g : geometry) (scale : Z)
| getRegion (ic : image_collection) (g : geometry) (scale : Z).

(** *** The world: clock, dict objects, requests sent *)

Definition loc : Type := positive.
Abbreviation record := (gmap string pyval).
Abbreviation heap_t := (gmap loc (gmap string pyval)).

Record world : Type := World {
  now : datetime;
  heap : heap_t;
  requests : list computed
}.

Definition M (A : Type) : Type := world -> result A * world.

Definition ret {A : Type} (a : A) : M A := fun w => (Ok a, w).
Definition raise {A : Type} (e : exn) : M A := fun w => (Raise e, w).
Definition bind {A B : Type} (c : M A) (k : A -> M B) : M B :=
  fun w =>
    match c w with
    | (Ok a, w') => k a w'
    | (Raise e, w') => (Raise e, w')
    end.
Definition liftR {A : Type} (r : result A) : M A := fun w => (r, w).

Notation "x <- c ;; k" := (bind c (fun x => k))
  (at level 100, c at next level, right associativity).

(** [try: body / except ee.EEException: raise e from None] *)
Definition except_EEException {A : Type} (body : M A) (e : exn) : M A :=
  fun w =>
    match body w with
    | (Raise (EEException _), w') => (Raise e, w')
    | r => r
    end.

(** [d.pop(key, None)] on the dict object [d]. *)
Definition dict_pop (key : string) (d : loc) : M unit :=
  fun w => (Ok tt, World (now w) (alter (delete key) d (heap w)) (requests w)).

(** [[f(d) for d in out]], the list built being dropped. *)
Fixpoint for_each (f : loc -> M unit) (out : list loc) : M unit :=
  match out with
  | [] => ret tt
  | d :: out' => (_ <- f d;; for_each f out')
  end.

(** The platform: what [getInfo()] returns or raises for a computation. *)
Variable remote : computed -> result pyval.

Definition getInfo (c : computed) : M pyval :=
  fun w => (remote c, World (now w) (heap w) (requests w ++ [c])).

(** [simplify] and [dictify] of the package [geextract]: they turn a
    response into a list of dict objects. *)
Variable simplify dictify : pyval -> heap_t -> result (list loc) * heap_t.

Definition call_helper (f : pyval -> heap_t -> result (list loc) * heap_t)
  (x : pyval) : M (list loc) :=
  fun w => let '(r, h) := f x (heap w) in (r, World (now w) h (requests w)).

(** *** [ts_extract] *)

Record args : Type := Args {
  start : datetime;
  mode : string;
  lon : option number;
  lat : option number;
  end_ : datetime;
  radius : option number;
  feature : option pyval;
  polar : polar_val;
  orbit : option Z;
  stats : string
}.

(** The default values of the parameters, computed once, when the [def]
    statement runs: [end = datetime.today()] reads the clock then. *)
Record defaults : Type := Defaults { default_end : datetime }.

Definition def_ts_extract : M defaults :=
  fun w => (Ok (Defaults (now w)), w).

(** [ts_extract(start)]: every optional parameter left out. *)
Definition default_args (d : defaults) (start : datetime) : args :=
  Args start "IW" None None (default_end d) None None
       (PolarList POLARIZATIONS) None "mean".

Definition reducer_of_stats (stats : string) : result reducer :=
  if String.eqb stats "mean" then Ok Reducer_mean
  else if String.eqb stats "median" then Ok Reducer_median
  else if String.eqb stats "max" then Ok Reducer_max
  else if String.eqb stats "min" then Ok Reducer_min
  else Raise (ValueError unknown_stats).

Definition ts_extract (a : args) : M (list loc) :=
  (* CHECK INPUTS *)
  _ <- liftR (check_mode (mode a));;
  polar <- liftR (check_polar (polar a));;
  orbit <- liftR (check_orbit (orbit a));;
  (* INITIALIZING COLLECTION *)
  let collection_name := "COPERNICUS/S1_GRD" in
  let sentinel_ic :=
    filterDate (ImageCollection collection_name) (start a) (end_ a) in
  (* FILTERING COLLECTION *)
  let sentinel_ic :=
    filter_ sentinel_ic (Filter_eq "instrumentMode" (mode a)) in
  let sentinel_ic :=
    match orbit with
    | Some o => filter_ sentinel_ic (Filter_eq "orbitProperties_pass" o)
    | None => sentinel_ic
    end in
  if is_Some_b (radius a) || is_Some_b (feature a) then
    fun_ <- liftR (reducer_of_stats (stats a));;
    geometry <-
      liftR (match feature a with
             | Some f =>
                 (g <-- getitem f "geometry";;
                  c <-- getitem g "coordinates";;
                  Ok (Geometry_Polygon c))%result
             | None =>
                 Ok (buffer (Geometry_Point (lon a) (lat a)) (radius a))
             end);;
    fc <- except_EEException
            (getInfo (map_reduce_region
                        (select (filterBounds sentinel_ic geometry) polar)
                        fun_ geometry 10))
            (ValueError no_data);;
    call_helper simplify fc
  else
    let geometry := Geometry_Point (lon a) (lat a) in
    l <- except_EEException
           (getInfo (getRegion
                       (select (filterBounds sentinel_ic geometry) polar)
                       geometry 10))
           (ValueError no_data);;
    out <- call_helper dictify l;;
    _ <- for_each (dict_pop "longitude") out;;
    _ <- for_each (dict_pop "latitude") out;;
    _ <- for_each (dict_pop "time") out;;
    ret out.

End Extract.

Arguments PNone {number}.
Arguments PBool {number} b.
Arguments PInt {number} z.
Arguments PFloat {number} x.
Arguments PStr {number} s.
Arguments PList {number} l.
Arguments PDict {number} d.
Arguments getitem {number} v k.
Arguments Geometry_Polygon {number} coords.
Arguments Geometry_Point {number} lon lat.
Arguments buffer {number} g distance.
Arguments ImageCollection {number} name.
Arguments filterDate {number} ic start opt_end.
Arguments filter_ {number} ic f.
Arguments filterBounds {number} ic g.
Arguments select {number} ic selectors.
Arguments map_reduce_region {number} ic fun_ g scale.
Arguments getRegion {number} ic g scale.
Arguments World {number} now heap requests.
Arguments now {number} w.
Arguments heap {number} w.
Arguments requests {number} w.
Arguments Args {number}.
Arguments start {number} a.
Arguments mode {number} a.
Arguments lon {number} a.
Arguments lat {number} a.
Arguments end_ {number} a.
Arguments radius {number} a.
Arguments feature {number} a.
Arguments polar {number} a.
Arguments orbit {number} a.
Arguments stats {number} a.
Arguments def_ts_extract {number}.
Arguments default_args {number} d start.
Arguments dict_pop {number} key d.
Arguments for_each {number} f out.
Arguments getInfo {number} remote c.
Arguments call_helper {number} f x.
Arguments except_EEException {number A} body e.
Arguments ts_extract {number} remote simplify dictify a.

(** ** Reading a computation: what a request asks for *)

Section Reading.
Context {number : Type}.

Definition computed_collection (c : computed number) : image_collection number :=
  match c with
  | map_reduce_region ic _ _ _ => ic
  | getRegion ic _ _ => ic
  end.

(** The attribute filters of a collection, innermost first. *)
Fixpoint filters_of (ic : image_collection number) : list ee_filter :=
  match ic with
  | ImageCollection _ => []
  | filterDate ic' _ _ => filters_of ic'
  | filter_ ic' f => filters_of ic' ++ [f]
  | filterBounds ic' _ => filters_of ic'
  | select ic' _ => filters_of ic'
  end.

(** The date intervals, as (start, end) pairs. *)
Fixpoint dates_of (ic : image_collection number) : list (datetime * datetime) :=
  match ic with
  | ImageCollection _ => []
  | filterDate ic' s e => dates_of ic' ++ [(s, e)]
  | filter_ ic' _ => dates_of ic'
  | filterBounds ic' _ => dates_of ic'
  | select ic' _ => dates_of ic'
  end.

(** The values that the filters on the orbit pass ask for. *)
Definition orbit_filters (c : computed number) : list string :=
  flat_map (fun '(Filter_eq name value) =>
              if String.eqb name "orbitProperties_pass" then [value] else [])
           (filters_of (computed_collection c)).

(** The selected bands. *)
Fixpoint selectors_of (ic : image_collection number) : list (list string) :=
  match ic with
  | ImageCollection _ => []
  | filterDate ic' _ _ => selectors_of ic'
  | filter_ ic' _ => selectors_of ic'
  | filterBounds ic' _ => selectors_of ic'
  | select ic' l => selectors_of ic' ++ [l]
  end.

(** [sentinel_ic] once the date and attribute filters are applied (lines
    151-165), for the resolved orbit name. *)
Definition sentinel_ic (a : args number) (orbit : option string)
  : image_collection number :=
  let ic :=
    filter_ (filterDate (ImageCollection "COPERNICUS/S1_GRD") (start a) (end_ a))
            (Filter_eq "instrumentMode" (mode a)) in
  match orbit with
  | Some o => filter_ ic (Filter_eq "orbitProperties_pass" o)
  | None => ic
  end.

(** The geometry of the region branch (lines 180-183). *)
Definition region_geometry (a : args number) : result (geometry number) :=
  match feature a with
  | Some f =>
      (g <-- getitem f "geometry";;
       c <-- getitem g "coordinates";;
       Ok (Geometry_Polygon c))%result
  | None => Ok (buffer (Geometry_Point (lon a) (lat a)) (radius a))
  end.

(** The heap once [d.pop(key, None)] has run for every [d] of [out]. *)
Definition pop_each (key : string) (out : list loc)
    (h : gmap loc (gmap string (pyval number)))
  : gmap loc (gmap string (pyval number)) :=
  foldl (fun h d => alter (delete key) d h) h out.

(** The world after a request. *)
Definition sent (c : computed number) (w : world number) : world number :=
  World (now w) (heap w) (requests w ++ [c]).

Definition set_stats (s : string) (a : args number) : args number :=
  Args (start a) (mode a) (lon a) (lat a) (end_ a) (radius a) (feature a)
       (polar a) (orbit a) s.

Definition set_radius (r : option number) (a : args number) : args number :=
  Args (start a) (mode a) (lon a) (lat a) (end_ a) r (feature a)
       (polar a) (orbit a) (stats a).

End Reading.

(** ** The documented grammar of a product identifier

    Sensor S1A or S1B; acquisition mode IW, SW or SM; GRD and resolution M
    or H; one digit of processing level and SDV; start and end, each eight
    digits of date, T and six digits of time; three alphanumeric blocks of
    lengths 6, 6 and 4; underscores between them. *)

Definition is_alnum (c : ascii) : bool :=
  let n := N_of_ascii c in
  (Re.is_digit c || ((65 <=? n) && (n <=? 90)) || ((97 <=? n) && (n <=? 122)))%N.

Definition documented_pattern : Re.regex :=
  Re.cat
    [ Re.alt (Re.lit "S1A") [Re.lit "S1B"]; Re.lit "_";
      Re.alt (Re.lit "IW") [Re.lit "SW"; Re.lit "SM"]; Re.lit "_GRD";
      Re.alt (Re.lit "M") [Re.lit "H"]; Re.lit "_";
      Re.digit; Re.lit "SDV_";
      Re.Rep 8 Re.digit; Re.lit "T"; Re.Rep 6 Re.digit; Re.lit "_";
      Re.Rep 8 Re.digit; Re.lit "T"; Re.Rep 6 Re.digit; Re.lit "_";
      Re.Rep 6 (Re.Class is_alnum); Re.lit "_";
      Re.Rep 6 (Re.Class is_alnum); Re.lit "_";
      Re.Rep 4 (Re.Class is_alnum) ].

(** The whole string matches the pattern. *)
Definition fullmatch (p : Re.regex) (s : string) : bool :=
  existsb (fun '(_, j) => Nat.eqb j (String.length s)) (Re.rmatch p s 0).

Definition documented_grammar (s : string) : bool :=
  fullmatch documented_pattern s.

(** A pattern never reads the character [c]. *)
Fixpoint avoids (c : ascii) (r : Re.regex) : bool :=
  match r with
  | Re.Chr c' => negb (Ascii.eqb c' c)
  | Re.Class p => negb (p c)
  | Re.Cat r1 r2 => avoids c r1 && avoids c r2
  | Re.Alt r1 r2 => avoids c r1 && avoids c r2
  | Re.Rep _ r1 => avoids c r1
  | Re.Group _ r1 => avoids c r1
  | Re.Eps => true
  end.

(** ** Inputs used below *)

(** The identifier of the docstring of [get_date]. *)
Definition doc_example : string :=
  "S1A_IW_GRDH_1SDV_20190105T000740_20190105T000805_025335_02CDC8_E4C2".

(** A file path around an identifier whose fields are set apart the way the
    lines of the pattern text are. *)
Definition spaced_id : string :=
  indent ++ "S1A_" ++ indent ++ "IW_GRD" ++ indent ++ "H_" ++ indent ++ "1SDV_"
  ++ indent ++ "20190105T" ++ indent ++ "000740_" ++ indent ++ "20190106T"
  ++ indent ++ "000805_" ++ indent ++ "025335_" ++ indent ++ "02CDC8_"
  ++ indent ++ "E4C2" ++ indent.
Definition spaced_path : string := "/data/" ++ spaced_id ++ ".SAFE".
(** ** Sample calls, platforms and helpers

    The calls are those of the test suite. Numbers are written as decimal
    fractions: [Decimal m e] stands for m * 10^e. *)

Record decimal : Type := Decimal { mantissa : Z; exponent : Z }.

Definition world0 : world decimal :=
  World (Datetime 2019 6 2 12 0 0 0) ∅ [].

(** [ts_extract(start=datetime(2019,1,1), end=datetime(2019,6,1),
    lon=-37.7, lat=-4.6)] and its variants. *)
Definition call_point : args decimal :=
  Args (Datetime 2019 1 1 0 0 0 0) "IW"
       (Some (Decimal (-377) (-1))) (Some (Decimal (-46) (-1)))
       (Datetime 2019 6 1 0 0 0 0) None None
       (PolarList POLARIZATIONS) None "mean".

Definition call_point_ascending : args decimal :=
  Args (Datetime 2019 1 1 0 0 0 0) "IW"
       (Some (Decimal (-377) (-1))) (Some (Decimal (-46) (-1)))
       (Datetime 2019 6 1 0 0 0 0) None None
       (PolarList POLARIZATIONS) (Some 0%Z) "mean".

Definition call_radius_descending : args decimal :=
  Args (Datetime 2019 1 1 0 0 0 0) "IW"
       (Some (Decimal (-377) (-1))) (Some (Decimal (-46) (-1)))
       (Datetime 2019 6 1 0 0 0 0) (Some (Decimal 500 0)) None
       (PolarList POLARIZATIONS) (Some 1%Z) "mean".

(** The calls of [test_exceptions]: [lon=-3, lat=44.7,
    start=datetime(1999,1,1), end=datetime(2000,6,1), radius=300] and one
    more argument. *)
Definition call_1999 (mode : string) (polar : polar_val) (orbit : option Z)
    (stats : string) : args decimal :=
  Args (Datetime 1999 1 1 0 0 0 0) mode
       (Some (Decimal (-3) 0)) (Some (Decimal 447 (-1)))
       (Datetime 2000 6 1 0 0 0 0) (Some (Decimal 300 0)) None
       polar orbit stats.

Definition call_orbit_2 : args decimal :=
  call_1999 "IW" (PolarList POLARIZATIONS) (Some 2%Z) "mean".
Definition call_mode_empty : args decimal :=
  call_1999 "" (PolarList POLARIZATIONS) None "mean".
Definition call_stats_mode : args decimal :=
  call_1999 "IW" (PolarList POLARIZATIONS) None "mode".
(** [polar='HH'], with the default [stats]. *)
Definition call_polar_HH : args decimal :=
  call_1999 "IW" (PolarStr "HH") None "mean".

(** The call of the test suite for a polarization that does not exist:
    [polar='HH'] and [stats='mode']. *)
Definition call_polar_HH_test : args decimal :=
  call_1999 "IW" (PolarStr "HH") None "mode".

(** A polygon feature, given together with a radius. *)
Definition square : pyval decimal :=
  PList [PList [PList [PInt (-38); PInt (-5)]; PList [PInt (-37); PInt (-5)];
                PList [PInt (-37); PInt (-4)]; PList [PInt (-38); PInt (-4)];
                PList [PInt (-38); PInt (-5)]]].
Definition square_feature : pyval decimal :=
  PDict {[ "type" := PStr "Feature";
           "geometry" := PDict {[ "type" := PStr "Polygon";
                                  "coordinates" := square ]} ]}.
Definition call_feature_radius : args decimal :=
  Args (Datetime 2019 1 1 0 0 0 0) "IW"
       (Some (Decimal (-377) (-1))) (Some (Decimal (-46) (-1)))
       (Datetime 2019 6 1 0 0 0 0) (Some (Decimal 500 0)) (Some square_feature)
       (PolarList POLARIZATIONS) None "median".

(** A table as [getRegion] returns it: a header and one row per image. *)
Definition sample_table : pyval decimal :=
  PList
    [ PList [PStr "id"; PStr "longitude"; PStr "latitude"; PStr "time";
             PStr "VV"; PStr "VH"];
      PList [PStr "S1A_IW_GRDH_1SDV_20190105T000740_20190105T000805_025335_02CDC8_E4C2";
             PFloat (Decimal (-377) (-1)); PFloat (Decimal (-46) (-1));
             PInt 1546646860000;
             PFloat (Decimal (-75) (-1)); PFloat (Decimal (-142) (-1))];
      PList [PStr "S1A_IW_GRDH_1SDV_20190117T000739_20190117T000804_025510_02D415_6A4B";
             PFloat (Decimal (-377) (-1)); PFloat (Decimal (-46) (-1));
             PInt 1547683659000;
             PFloat (Decimal (-81) (-1)); PNone] ].

(** A platform that answers: no image for a region, the table for a point. *)
Definition platform_sample (c : computed decimal) : result (pyval decimal) :=
  match c with
  | map_reduce_region _ _ _ _ =>
      Ok (PDict {[ "type" := PStr "FeatureCollection";
                   "features" := PList [] ]})
  | getRegion _ _ _ => Ok sample_table
  end.

(** Platforms that fail. *)
Definition platform_timeout (c : computed decimal) : result (pyval decimal) :=
  Raise (EEException "Computation timed out.").
Definition platform_unreachable (c : computed decimal) : result (pyval decimal) :=
  Raise (OtherException "ConnectionError" "Connection refused").

(** Helpers that build one dict object per row, or per feature, at
    locations not in use. *)
Definition fresh_loc (h : gmap loc (gmap string (pyval decimal))) : loc :=
  Pos.succ (map_fold (fun k _ m => Pos.max k m) 1%positive h).

Fixpoint zip_dict (header row : list (pyval decimal))
    (d : gmap string (pyval decimal)) : gmap string (pyval decimal) :=
  match header, row with
  | PStr k :: header', v :: row' => zip_dict header' row' (<[k := v]> d)
  | _, _ => d
  end.

Fixpoint alloc_rows (header rows : list (pyval decimal))
    (h : gmap loc (gmap string (pyval decimal)))
  : list loc * gmap loc (gmap string (pyval decimal)) :=
  match rows with
  | PList row :: rows' =>
      let d := fresh_loc h in
      let '(out, h') := alloc_rows header rows' (<[d := zip_dict header row ∅]> h) in
      (d :: out, h')
  | _ => ([], h)
  end.

Definition sample_dictify (x : pyval decimal)
    (h : gmap loc (gmap string (pyval decimal)))
  : result (list loc) * gmap loc (gmap string (pyval decimal)) :=
  match x with
  | PList (PList header :: rows) =>
      let '(out, h') := alloc_rows header rows h in (Ok out, h')
  | _ => (Raise (TypeError "not a table"), h)
  end.

Fixpoint alloc_features (fs : list (pyval decimal))
    (h : gmap loc (gmap string (pyval decimal)))
  : list loc * gmap loc (gmap string (pyval decimal)) :=
  match fs with
  | PDict f :: fs' =>
      match f !! "properties", f !! "id" with
      | Some (PDict props), Some id =>
          let d := fresh_loc h in
          let '(out, h') := alloc_features fs' (<[d := <["id" := id]> props]> h) in
          (d :: out, h')
      | _, _ => ([], h)
      end
  | _ => ([], h)
  end.

Definition sample_simplify (fc : pyval decimal)
    (h : gmap loc (gmap string (pyval decimal)))
  : result (list loc) * gmap loc (gmap string (pyval decimal)) :=
  match getitem fc "features" with
  | Ok (PList fs) => let '(out, h') := alloc_features fs h in (Ok out, h')
  | Ok _ => (Raise (TypeError "not a list of features"), h)
  | Raise e => (Raise e, h)
  end.

(** The dict objects of the sample table. *)
Definition sample_heap : gmap loc (gmap string (pyval decimal)) :=
  snd (sample_dictify sample_table ∅).

(** The call of the docstring of [ts_extract], which leaves [end] out:
    [ts_extract(lon=-89.8107197, lat=20.4159611, mode='IW',
    start=datetime(2018, 1, 1, 0, 0), radius=500)]. *)
Definition call_docstring (d : defaults) : args decimal :=
  Args (Datetime 2018 1 1 0 0 0 0) "IW"
       (Some (Decimal (-898107197) (-7))) (Some (Decimal 204159611 (-7)))
       (default_end d) (Some (Decimal 500 0)) None
       (PolarList POLARIZATIONS) None "mean".

(** The module is imported on 2019-01-01; the call is made on 2019-06-01. *)
Definition at_import : world decimal :=
  World (Datetime 2019 1 1 9 0 0 0) ∅ [].
Definition at_call : world decimal :=
  World (Datetime 2019 6 1 9 0 0 0) ∅ [].

(** ** What a pattern always does

    The groups that every match of a pattern defines, and the width that
    all its matches have, when they have the same. *)

Fixpoint defines (name : string) (r : Re.regex) : bool :=
  match r with
  | Re.Group n r1 => String.eqb n name || defines name r1
  | Re.Cat r1 r2 => defines name r1 || defines name r2
  | Re.Alt r1 r2 => defines name r1 && defines name r2
  | Re.Rep (S _) r1 => defines name r1
  | _ => false
  end.

Fixpoint width (r : Re.regex) : option nat :=
  match r with
  | Re.Chr _ => Some 1
  | Re.Class _ => Some 1
  | Re.Cat r1 r2 =>
      match width r1, width r2 with
      | Some a, Some b => Some (a + b)
      | _, _ => None
      end
  | Re.Alt r1 r2 =>
      match width r1, width r2 with
      | Some a, Some b => if Nat.eqb a b then Some a else None
      | _, _ => None
      end
  | Re.Rep n r1 =>
      match width r1 with
      | Some a => Some (n * a)
      | None => None
      end
  | Re.Group _ r1 => width r1
  | Re.Eps => Some 0
  end.

(** A match found [n] characters further to the right. *)
Definition shift_match (n : nat) (m : Re.captures * nat) : Re.captures * nat :=
  (List.map (fun '(name, (a, b)) => (name, (n + a, n + b))) (fst m), n + snd m).

(** A date of the calendar, as the constructor of [date] accepts it. *)
Definition calendar_date (d : date) : Prop :=
  (1 <= year d <= 9999 /\ 1 <= month d <= 12
   /\ 1 <= day d <= days_in_month (year d) (month d))%Z.

(** An identifier set apart as the pattern text is, whose end date is not a
    date of the calendar (30 February). *)
Definition spaced_id_bad_end : string :=
  indent ++ "S1A_" ++ indent ++ "IW_GRD" ++ indent ++ "H_" ++ indent ++ "1SDV_"
  ++ indent ++ "20190105T" ++ indent ++ "000740_" ++ indent ++ "20190230T"
  ++ indent ++ "000805_" ++ indent ++ "025335_" ++ indent ++ "02CDC8_"
  ++ indent ++ "E4C2" ++ indent.

(** ** More readings of a request, and more ways to change a call *)

Section Reading2.
Context {number : Type}.

Definition computed_geometry (c : computed number) : geometry number :=
  match c with
  | map_reduce_region _ _ g _ => g
  | getRegion _ g _ => g
  end.

Definition computed_scale (c : computed number) : Z :=
  match c with
  | map_reduce_region _ _ _ scale => scale
  | getRegion _ _ scale => scale
  end.

(** The name of the collection that the filters are applied to. *)
Fixpoint collection_name_of (ic : image_collection number) : string :=
  match ic with
  | ImageCollection name => name
  | filterDate ic' _ _ => collection_name_of ic'
  | filter_ ic' _ => collection_name_of ic'
  | filterBounds ic' _ => collection_name_of ic'
  | select ic' _ => collection_name_of ic'
  end.

(** The geometries that bound the collection. *)
Fixpoint bounds_of (ic : image_collection number) : list (geometry number) :=
  match ic with
  | ImageCollection _ => []
  | filterDate ic' _ _ => bounds_of ic'
  | filter_ ic' _ => bounds_of ic'
  | filterBounds ic' g => bounds_of ic' ++ [g]
  | select ic' _ => bounds_of ic'
  end.

Definition set_lon_lat (x y : option number) (a : args number) : args number :=
  Args (start a) (mode a) x y (end_ a) (radius a) (feature a)
       (polar a) (orbit a) (stats a).

End Reading2.

(** The name under which [stats] asks for a reducer. *)
Definition reducer_name (r : reducer) : string :=
  match r with
  | Reducer_mean => "mean"
  | Reducer_median => "median"
  | Reducer_max => "max"
  | Reducer_min => "min"
  end.

(** Sample calls for the properties below. *)
Definition call_polar_list_HH : args decimal :=
  call_1999 "IW" (PolarList ["VV"; "HH"; "XX"]) (Some 2%Z) "mode".

Definition feature_without_geometry : pyval decimal :=
  PDict {[ "type" := PStr "Feature" ]}.
Definition feature_without_coordinates : pyval decimal :=
  PDict {[ "type" := PStr "Feature";
           "geometry" := PDict {[ "type" := PStr "Polygon" ]} ]}.
Definition call_with_feature (f : pyval decimal) : args decimal :=
  Args (Datetime 2019 1 1 0 0 0 0) "IW"
       (Some (Decimal (-377) (-1))) (Some (Decimal (-46) (-1)))
       (Datetime 2019 6 1 0 0 0 0) None (Some f)
       (PolarList POLARIZATIONS) None "max".

(** A feature collection as the reduction returns it, with one feature
    whose properties hold a longitude. *)
Definition sample_features : pyval decimal :=
  PDict {[ "type" := PStr "FeatureCollection";
           "features" :=
             PList [PDict {[ "id" := PStr "S1A_IW_GRDH_1SDV_20190105T000740_20190105T000805_025335_02CDC8_E4C2";
                             "properties" :=
                               PDict {[ "VV" := PFloat (Decimal (-75) (-1));
                                        "longitude" := PFloat (Decimal (-377) (-1)) ]} ]}] ]}.
Definition platform_features (c : computed decimal) : result (pyval decimal) :=
  Ok sample_features.

(** A helper that fails with the exception class of the platform. *)
Definition failing_helper (x : pyval decimal)
    (h : gmap loc (gmap string (pyval decimal)))
  : result (list loc) * gmap loc (gmap string (pyval decimal)) :=
  (Raise (EEException "raised by the helper"), h).


(** * Properties *)

(** ** The matcher *)

Lemma get_beyond (s : string) (i : nat) :
  String.length s <= i -> String.get i s = None.
Proof.
  revert i. induction s as [|c s IH]; intros i Hi; simpl in *.
  - reflexivity.
  - destruct i as [|i]; [lia|]. apply IH. lia.
Qed.

Lemma rmatch_Rep_0 (r : Re.regex) (s : string) (i : nat) :
  Re.rmatch (Re.Rep 0 r) s i = [([], i)].
Proof. reflexivity. Qed.

Lemma rmatch_Rep_S (n : nat) (r : Re.regex) (s : string) (i : nat) :
  Re.rmatch (Re.Rep (S n) r) s i =
  flat_map (fun '(g1, j) =>
              List.map (fun '(g2, k) => (g1 ++ g2, k))
                       (Re.rmatch (Re.Rep n r) s j))
           (Re.rmatch r s i).
Proof. reflexivity. Qed.

Lemma rmatch_Cat_nil (r1 r2 : Re.regex) (s : string) (i : nat) :
  Re.rmatch r1 s i = [] -> Re.rmatch (Re.Cat r1 r2) s i = [].
Proof. intros H. simpl. rewrite H. reflexivity. Qed.

Lemma rmatch_Chr_nil (c : ascii) (s : string) (i : nat) :
  String.get i s <> Some c -> Re.rmatch (Re.Chr c) s i = [].
Proof.
  intros H. simpl. destruct (String.get i s) as [c'|]; [|reflexivity].
  destruct (Ascii.eqb c c') eqn:E; [|reflexivity].
  apply Ascii.eqb_eq in E. subst. congruence.
Qed.

(** A match of a sequence is a match of its first part followed by a match
    of the rest. *)
Lemma in_seq_matches (m1 m2 : nat -> list (Re.captures * nat)) (i : nat)
    (g : Re.captures) (k : nat) :
  In (g, k)
     (flat_map (fun '(g1, j) => List.map (fun '(g2, k) => (g1 ++ g2, k)) (m2 j))
               (m1 i)) ->
  exists g1 j g2, In (g1, j) (m1 i) /\ In (g2, k) (m2 j).
Proof.
  intros H. apply in_flat_map in H as [[g1 j] [H1 H2]].
  apply in_map_iff in H2 as [[g2 k'] [E H2]].
  inversion E; subst. eauto.
Qed.

(** A pattern that avoids [c] matches only text without [c]. *)
Lemma rmatch_avoids (c : ascii) (s : string) (r : Re.regex) :
  avoids c r = true ->
  forall i g j, In (g, j) (Re.rmatch r s i) ->
    i <= j /\ forall k, i <= k < j -> String.get k s <> Some c.
Proof.
  induction r as [c'|p|r1 IH1 r2 IH2|r1 IH1 r2 IH2|n r1 IH1|name r1 IH1|];
    intros Hav i g j Hin; simpl in Hav.
  - simpl in Hin. destruct (String.get i s) as [x|] eqn:Hx; [|contradiction].
    destruct (Ascii.eqb c' x) eqn:E; [|contradiction].
    destruct Hin as [Hin|[]]. inversion Hin; subst. split; [lia|].
    intros k Hk. assert (k = i) by lia. subst k.
    apply Ascii.eqb_eq in E. subst x. rewrite Hx. intros [= ->].
    rewrite Ascii.eqb_refl in Hav. discriminate.
  - simpl in Hin. destruct (String.get i s) as [x|] eqn:Hx; [|contradiction].
    destruct (p x) eqn:E; [|contradiction].
    destruct Hin as [Hin|[]]. inversion Hin; subst. split; [lia|].
    intros k Hk. assert (k = i) by lia. subst k.
    rewrite Hx. intros [= ->]. rewrite E in Hav. discriminate.
  - apply andb_true_iff in Hav as [Ha1 Ha2].
    simpl in Hin. apply (in_seq_matches (Re.rmatch r1 s) (Re.rmatch r2 s)) in Hin
      as (g1 & j1 & g2 & H1 & H2).
    destruct (IH1 Ha1 _ _ _ H1) as [L1 N1].
    destruct (IH2 Ha2 _ _ _ H2) as [L2 N2].
    split; [lia|]. intros k Hk.
    destruct (le_lt_dec j1 k); [apply N2|apply N1]; lia.
  - apply andb_true_iff in Hav as [Ha1 Ha2].
    simpl in Hin. apply in_app_or in Hin as [Hin|Hin]; eauto.
  - revert i g j Hin. induction n as [|n IHn]; intros i g j Hin.
    + rewrite rmatch_Rep_0 in Hin. destruct Hin as [Hin|[]].
      inversion Hin; subst. split; [lia|]. intros k Hk. lia.
    + rewrite rmatch_Rep_S in Hin.
      apply (in_seq_matches (Re.rmatch r1 s) (Re.rmatch (Re.Rep n r1) s)) in Hin
        as (g1 & j1 & g2 & H1 & H2).
      destruct (IH1 Hav _ _ _ H1) as [L1 N1].
      destruct (IHn _ _ _ H2) as [L2 N2].
      split; [lia|]. intros k Hk.
      destruct (le_lt_dec j1 k); [apply N2|apply N1]; lia.
  - simpl in Hin. apply in_map_iff in Hin as [[g1 j1] [E H1]].
    inversion E; subst. eauto.
  - simpl in Hin. destruct Hin as [Hin|[]]. inversion Hin; subst.
    split; [lia|]. intros k Hk. lia.
Qed.

Lemma search_at_None (p : Re.regex) (s : string) (starts : list nat) :
  Re.search_at p s starts = None <->
  forall i, In i starts -> Re.rmatch p s i = [].
Proof.
  induction starts as [|i rest IH]; simpl.
  - split; [intros _ i []|reflexivity].
  - destruct (Re.rmatch p s i) as [|[g j] l] eqn:E.
    + rewrite IH. split.
      * intros H k [<-|Hk]; auto.
      * intros H k Hk. apply H. auto.
    + split; [discriminate|]. intros H. specialize (H i (or_introl eq_refl)).
      congruence.
Qed.

(** ** [get_date] *)

(** The pattern of [get_date] starts with a line break. *)
Lemma p0_starts_with_nl :
  exists r1 r2, p0 = Re.Cat (Re.Cat (Re.Chr "010") r1) r2.
Proof. eexists _, _. reflexivity. Qed.

Lemma p0_needs_nl (s : string) (i : nat) :
  String.get i s <> Some "010"%char -> Re.rmatch p0 s i = [].
Proof.
  intros H. destruct p0_starts_with_nl as (r1 & r2 & ->).
  apply rmatch_Cat_nil, rmatch_Cat_nil, rmatch_Chr_nil, H.
Qed.

(** [search] finds nothing exactly when the pattern matches at no position. *)
Lemma search_p0_None (s : string) :
  Re.search p0 s = None <-> forall i, Re.rmatch p0 s i = [].
Proof.
  unfold Re.search. rewrite search_at_None. split.
  - intros H i. destruct (le_lt_dec i (String.length s)) as [Hi|Hi].
    + apply H. apply in_seq. lia.
    + apply p0_needs_nl. rewrite get_beyond by lia. discriminate.
  - intros H i _. apply H.
Qed.

(** A string without a line break is rejected. *)
Lemma rejected_without_nl (s : string) (start_only : bool) :
  (forall i, String.get i s <> Some "010"%char) ->
  get_date s start_only = Raise (ValueError "Unknown pattern").
Proof.
  intros H. unfold get_date.
  assert (Re.search p0 s = None) as ->; [|reflexivity].
  apply search_p0_None. intros i. apply p0_needs_nl, H.
Qed.

(** A string of the documented grammar has no line break. *)
Lemma documented_grammar_no_nl (s : string) :
  documented_grammar s = true ->
  forall i, String.get i s <> Some "010"%char.
Proof.
  unfold documented_grammar, fullmatch. intros H i.
  apply existsb_exists in H as [[g j] [Hin Hj]].
  apply Nat.eqb_eq in Hj. subst j.
  assert (avoids "010" documented_pattern = true) as Hav by reflexivity.
  destruct (rmatch_avoids _ s _ Hav _ _ _ Hin) as [_ N].
  destruct (le_lt_dec (String.length s) i) as [Hi|Hi].
  - rewrite get_beyond by lia. discriminate.
  - apply N. lia.
Qed.

(** Every identifier of the documented grammar is rejected. *)
Lemma documented_ids_rejected (s : string) (start_only : bool) :
  documented_grammar s = true ->
  get_date s start_only = Raise (ValueError "Unknown pattern").
Proof.
  intros H. apply rejected_without_nl, documented_grammar_no_nl, H.
Qed.

Lemma bindR_not_raise {A B : Type} (r : result A) (k : A -> result B) (e : exn) :
  (forall e', r = Raise e' -> e' <> e) ->
  (forall a, k a <> Raise e) ->
  bindR r k <> Raise e.
Proof.
  intros Hr Hk. destruct r as [a|e']; simpl.
  - apply Hk.
  - intros [= ->]. exact (Hr e eq_refl eq_refl).
Qed.

Lemma group_raise (m : Re.match_obj) (name : string) (e : exn) :
  Re.group m name = Raise e -> e = IndexError "no such group".
Proof.
  unfold Re.group. destruct (Re.lookup_group name (Re.groups m)) as [[a b]|].
  - discriminate.
  - intros [= <-]. reflexivity.
Qed.

Lemma check_date_fields_raise (y m d : Z) (e : exn) :
  check_date_fields y m d = Raise e -> e <> ValueError "Unknown pattern".
Proof.
  unfold check_date_fields.
  repeat match goal with |- context [if ?b then _ else _] => destruct b end;
    intros [= <-]; simpl; discriminate.
Qed.

Lemma check_time_fields_raise (h mi s : Z) (e : exn) :
  check_time_fields h mi s = Raise e -> e <> ValueError "Unknown pattern".
Proof.
  unfold check_time_fields.
  repeat match goal with |- context [if ?b then _ else _] => destruct b end;
    intros [= <-]; simpl; discriminate.
Qed.

(** The errors of [strptime] are not the error of [get_date]. *)
Lemma strptime_raise (data_string : string) (e : exn) :
  Strptime.strptime data_string = Raise e -> e <> ValueError "Unknown pattern".
Proof.
  unfold Strptime.strptime. intros H Habs. subst e. revert H.
  destruct (Re.match_ Strptime.format_regex data_string) as [found|];
    [|simpl; discriminate].
  destruct (negb _); [simpl; discriminate|].
  repeat (apply bindR_not_raise;
          [intros e' He'; apply group_raise in He'; subst e'; discriminate
          |intros ?]).
  apply bindR_not_raise; [apply check_date_fields_raise|intros _].
  apply bindR_not_raise; [apply check_time_fields_raise|intros _].
  discriminate.
Qed.

(** C1 (the code at the identifier of its own docstring): the identifier
    conforms to the documented grammar, and [get_date] raises
    [ValueError('Unknown pattern')] for it, whether the start date alone or
    the pair is asked for, instead of returning 2019-01-05. *)
Theorem get_date_doc_example_rejected :
  documented_grammar doc_example = true /\
  get_date doc_example true = Raise (ValueError "Unknown pattern") /\
  get_date doc_example false = Raise (ValueError "Unknown pattern").
Proof. repeat split; vm_compute; reflexivity. Qed.

(** C4, as stated, fails: a string that does not conform to the documented
    grammar (a path, with text before and after the fields) is parsed. *)
Lemma get_date_parses_nonconforming :
  documented_grammar spaced_path = false /\
  get_date spaced_path false
  = Ok (StartEnd (Date 2019 1 5) (Date 2019 1 6)).
Proof. split; vm_compute; reflexivity. Qed.

(** C4, amended: [get_date] raises [ValueError('Unknown pattern')] exactly
    for the strings in which its pattern matches at no position; the
    pattern is searched for, so a string is not rejected for the text that
    surrounds a match. *)
Theorem get_date_unknown_pattern (filename : string) (start_only : bool) :
  (forall i, Re.rmatch p0 filename i = []) <->
  get_date filename start_only = Raise (ValueError "Unknown pattern").
Proof.
  rewrite <- search_p0_None. unfold get_date. split.
  - intros ->. reflexivity.
  - destruct (Re.search p0 filename) as [m|]; [|reflexivity].
    intros H. exfalso. revert H.
    repeat (apply bindR_not_raise;
            [intros e' He'; apply group_raise in He'; subst e'; discriminate
            |intros ?]).
    apply bindR_not_raise; [apply strptime_raise|intros start_dt].
    destruct (negb start_only); [|discriminate].
    repeat (apply bindR_not_raise;
            [intros e' He'; apply group_raise in He'; subst e'; discriminate
            |intros ?]).
    apply bindR_not_raise; [apply strptime_raise|intros end_dt].
    discriminate.
Qed.

(** ** [ts_extract] *)

Lemma str_in_spec (x : string) (l : list string) :
  str_in x l = true <-> In x l.
Proof.
  unfold str_in. rewrite existsb_exists. split.
  - intros [y [Hy E]]. apply String.eqb_eq in E. subst. exact Hy.
  - intros H. exists x. split; [exact H|apply String.eqb_refl].
Qed.

Lemma int_in_spec (x : Z) (l : list Z) :
  int_in x l = true <-> In x l.
Proof.
  unfold int_in. rewrite existsb_exists. split.
  - intros [y [Hy E]]. apply Z.eqb_eq in E. subst. exact Hy.
  - intros H. exists x. split; [exact H|apply Z.eqb_refl].
Qed.

Section ExtractProperties.
Context {number : Type}.
Variable remote : computed number -> result (pyval number).
Variable simplify dictify :
  pyval number -> gmap loc (gmap string (pyval number)) ->
  result (list loc) * gmap loc (gmap string (pyval number)).

Implicit Types (a : args number) (w : world number) (q : computed number).

(** *** The steps *)

Lemma for_each_dict_pop (key : string) (out : list loc) w :
  for_each (dict_pop key) out w
  = (Ok tt, World (now w) (pop_each key out (heap w)) (requests w)).
Proof.
  revert w. induction out as [|d out IH]; intros w.
  - destruct w; reflexivity.
  - simpl. unfold bind. simpl. rewrite IH. reflexivity.
Qed.

(** A call that fails a check raises at once, and the world is as before. *)
Lemma rejected_by_mode_check a w e :
  check_mode (mode a) = Raise e ->
  ts_extract remote simplify dictify a w = (Raise e, w).
Proof. intros H. unfold ts_extract, bind, liftR. rewrite H. reflexivity. Qed.

Lemma rejected_by_polar_check a w e :
  check_mode (mode a) = Ok tt ->
  check_polar (polar a) = Raise e ->
  ts_extract remote simplify dictify a w = (Raise e, w).
Proof.
  intros H1 H2. unfold ts_extract, bind, liftR. rewrite H1, H2. reflexivity.
Qed.

Lemma rejected_by_orbit_check a w p e :
  check_mode (mode a) = Ok tt ->
  check_polar (polar a) = Ok p ->
  check_orbit (orbit a) = Raise e ->
  ts_extract remote simplify dictify a w = (Raise e, w).
Proof.
  intros H1 H2 H3. unfold ts_extract, bind, liftR. rewrite H1, H2, H3.
  reflexivity.
Qed.

(** The region branch, once the checks have passed. *)
Lemma run_region_branch a w p o :
  check_mode (mode a) = Ok tt ->
  check_polar (polar a) = Ok p ->
  check_orbit (orbit a) = Ok o ->
  is_Some_b (radius a) || is_Some_b (feature a) = true ->
  ts_extract remote simplify dictify a w =
  match reducer_of_stats (stats a) with
  | Raise e => (Raise e, w)
  | Ok fun_ =>
      match region_geometry a with
      | Raise e => (Raise e, w)
      | Ok g =>
          let q := map_reduce_region
                     (select (filterBounds (sentinel_ic a o) g) p) fun_ g 10 in
          match remote q with
          | Raise (EEException _) => (Raise (ValueError no_data), sent q w)
          | Raise e => (Raise e, sent q w)
          | Ok fc =>
              let '(r, h) := simplify fc (heap w) in
              (r, World (now w) h (requests w ++ [q]))
          end
      end
  end.
Proof.
  intros H1 H2 H3 H4.
  unfold ts_extract, bind, liftR. rewrite H1, H2, H3, H4.
  destruct (reducer_of_stats (stats a)) as [fun_|e]; [|reflexivity].
  fold (region_geometry a).
  destruct (region_geometry a) as [g|e]; [|reflexivity].
  unfold except_EEException, getInfo, call_helper, sentinel_ic, sent.
  destruct o; simpl;
    match goal with |- context [remote ?q] => destruct (remote q) as [fc|[]] end;
    reflexivity.
Qed.

(** The point branch, once the checks have passed. *)
Lemma run_point_branch a w p o :
  check_mode (mode a) = Ok tt ->
  check_polar (polar a) = Ok p ->
  check_orbit (orbit a) = Ok o ->
  is_Some_b (radius a) || is_Some_b (feature a) = false ->
  ts_extract remote simplify dictify a w =
  let g := Geometry_Point (lon a) (lat a) in
  let q := getRegion (select (filterBounds (sentinel_ic a o) g) p) g 10 in
  match remote q with
  | Raise (EEException _) => (Raise (ValueError no_data), sent q w)
  | Raise e => (Raise e, sent q w)
  | Ok l =>
      match dictify l (heap w) with
      | (Raise e, h) => (Raise e, World (now w) h (requests w ++ [q]))
      | (Ok out, h) =>
          (Ok out,
           World (now w)
                 (pop_each "time" out
                    (pop_each "latitude" out (pop_each "longitude" out h)))
                 (requests w ++ [q]))
      end
  end.
Proof.
  intros H1 H2 H3 H4.
  unfold ts_extract, bind, liftR. rewrite H1, H2, H3, H4.
  unfold except_EEException, getInfo, call_helper, sentinel_ic, sent.
  destruct o; simpl;
    match goal with |- context [remote ?q] => destruct (remote q) as [l|[]] end;
    try reflexivity; cbn [heap now requests];
    destruct (dictify l (heap w)) as [[out|e] h]; try reflexivity;
    rewrite !for_each_dict_pop; reflexivity.
Qed.

(** Which checks raise what. *)
Lemma check_mode_unknown (mode : string) :
  str_in mode MODES = false ->
  check_mode mode = Raise (ValueError (unknown_mode mode)).
Proof. intros H. unfold check_mode. rewrite H. reflexivity. Qed.

Lemma check_mode_raise (mode : string) (e : exn) :
  check_mode mode = Raise e -> e = ValueError (unknown_mode mode).
Proof.
  unfold check_mode. destruct (negb (str_in mode MODES)); [|discriminate].
  intros [= <-]. reflexivity.
Qed.

Lemma check_polar_list_raise (l : list string) (e : exn) :
  check_polar_list l = Raise e ->
  exists p, In p l /\ str_in p POLARIZATIONS = false
            /\ e = ValueError (unknown_polarization p).
Proof.
  induction l as [|p l IH]; cbn [check_polar_list]; [discriminate|].
  destruct (str_in p POLARIZATIONS) eqn:E; cbn [negb].
  - intros H. destruct (IH H) as (p' & Hin & Hp & He).
    exists p'. split; [right; exact Hin|auto].
  - intros [= <-]. exists p. split; [left; reflexivity|auto].
Qed.

Lemma check_polar_raise (polar : polar_val) (e : exn) :
  check_polar polar = Raise e -> exists msg, e = ValueError msg.
Proof.
  destruct polar as [|l|p]; simpl; try discriminate.
  destruct (check_polar_list l) as [[]|e'] eqn:E; simpl; [discriminate|].
  intros [= <-]. apply check_polar_list_raise in E as (p & _ & _ & ->). eauto.
Qed.

Lemma check_orbit_unknown (o : Z) :
  int_in o [0; 1]%Z = false ->
  check_orbit (Some o) = Raise (ValueError (unknown_orbit o)).
Proof. intros H. unfold check_orbit. rewrite H. reflexivity. Qed.

Lemma check_orbit_known (o : Z) :
  int_in o [0; 1]%Z = true ->
  check_orbit (Some o)
  = Ok (Some (if (o =? 0)%Z then "ASCENDING" else "DESCENDING")).
Proof.
  intros H. apply int_in_spec in H as [<-|[<-|[]]]; reflexivity.
Qed.

Lemma reducer_of_stats_unknown (stats : string) :
  str_in stats ["mean"; "median"; "max"; "min"] = false ->
  reducer_of_stats stats = Raise (ValueError unknown_stats).
Proof.
  unfold str_in, reducer_of_stats. simpl. intros H.
  repeat (apply orb_false_iff in H as [-> H]). reflexivity.
Qed.

Lemma app_one_neq {A : Type} (l : list A) (x : A) : l <> l ++ [x].
Proof.
  intros H. apply (f_equal (@List.length A)) in H.
  rewrite List.length_app in H. simpl in H. lia.
Qed.

(** A request is never sent by a call that fails a check, and the request
    that is sent is the one of the branch taken. *)
Lemma sent_request_inv a w q :
  requests (snd (ts_extract remote simplify dictify a w)) = requests w ++ [q] ->
  exists p o,
    check_mode (mode a) = Ok tt /\
    check_polar (polar a) = Ok p /\
    check_orbit (orbit a) = Ok o /\
    ((is_Some_b (radius a) || is_Some_b (feature a) = true /\
      exists fun_ g,
        reducer_of_stats (stats a) = Ok fun_ /\
        region_geometry a = Ok g /\
        q = map_reduce_region
              (select (filterBounds (sentinel_ic a o) g) p) fun_ g 10)
     \/
     (is_Some_b (radius a) || is_Some_b (feature a) = false /\
      q = getRegion
            (select (filterBounds (sentinel_ic a o)
                       (Geometry_Point (lon a) (lat a))) p)
            (Geometry_Point (lon a) (lat a)) 10)).
Proof.
  destruct (check_mode (mode a)) as [[]|e] eqn:H1.
  2: { rewrite (rejected_by_mode_check _ _ _ H1). simpl. intros H.
       destruct (app_one_neq _ _ H). }
  destruct (check_polar (polar a)) as [p|e] eqn:H2.
  2: { rewrite (rejected_by_polar_check _ _ _ H1 H2). simpl. intros H.
       destruct (app_one_neq _ _ H). }
  destruct (check_orbit (orbit a)) as [o|e] eqn:H3.
  2: { rewrite (rejected_by_orbit_check _ _ _ _ H1 H2 H3). simpl. intros H.
       destruct (app_one_neq _ _ H). }
  intros Hs. exists p, o. repeat (split; [reflexivity|]).
  destruct (is_Some_b (radius a) || is_Some_b (feature a)) eqn:H4.
  - left. split; [reflexivity|].
    rewrite (run_region_branch _ _ _ _ H1 H2 H3 H4) in Hs.
    destruct (reducer_of_stats (stats a)) as [fun_|e].
    2: { simpl in Hs. destruct (app_one_neq _ _ Hs). }
    destruct (region_geometry a) as [g|e].
    2: { simpl in Hs. destruct (app_one_neq _ _ Hs). }
    exists fun_, g. repeat (split; [reflexivity|]).
    cbv zeta in Hs.
    match type of Hs with context [remote ?q'] => set (q0 := q') in * end.
    destruct (remote q0) as [fc|[]]; try destruct (simplify fc (heap w));
      simpl in Hs; apply app_inv_head in Hs; congruence.
  - right. split; [reflexivity|].
    rewrite (run_point_branch _ _ _ _ H1 H2 H3 H4) in Hs. cbv zeta in Hs.
    match type of Hs with context [remote ?q'] => set (q0 := q') in * end.
    destruct (remote q0) as [l|[]];
      try (destruct (dictify l (heap w)) as [[out|e] h]);
      simpl in Hs; apply app_inv_head in Hs; congruence.
Qed.

(** The outcome of a call that sent a request which the platform failed. *)
Lemma failed_request_outcome a w q e :
  requests (snd (ts_extract remote simplify dictify a w)) = requests w ++ [q] ->
  remote q = Raise e ->
  fst (ts_extract remote simplify dictify a w)
  = Raise (match e with EEException _ => ValueError no_data | _ => e end).
Proof.
  intros Hs Hq.
  destruct (sent_request_inv _ _ _ Hs)
    as (p & o & H1 & H2 & H3 & [[H4 (fun_ & g & H5 & H6 & ->)]|[H4 ->]]).
  - rewrite (run_region_branch _ _ _ _ H1 H2 H3 H4), H5, H6. cbv zeta.
    rewrite Hq. destruct e; reflexivity.
  - rewrite (run_point_branch _ _ _ _ H1 H2 H3 H4). cbv zeta.
    rewrite Hq. destruct e; reflexivity.
Qed.

(** *** The dict objects after the three passes of [pop] *)

Lemma pop_each_lookup (key : string) (out : list loc)
    (h : gmap loc (gmap string (pyval number))) (d : loc) :
  pop_each key out h !! d
  = if decide (d ∈ out) then delete key <$> h !! d else h !! d.
Proof.
  revert h. induction out as [|x out IH]; intros h; simpl.
  - destruct (decide (d ∈ [])) as [Hin|_]; [|reflexivity].
    apply elem_of_nil in Hin. contradiction.
  - unfold pop_each in *. simpl. rewrite IH.
    destruct (decide (d = x)) as [->|Hne].
    + rewrite lookup_alter_eq.
      destruct (decide (x ∈ x :: out)) as [_|Hn];
        [|exfalso; apply Hn; left].
      destruct (decide (x ∈ out)); [|reflexivity].
      destruct (h !! x) as [r|]; simpl; [|reflexivity].
      f_equal. apply delete_id, lookup_delete_eq.
    + rewrite lookup_alter_ne by congruence.
      destruct (decide (d ∈ out)) as [Hin|Hn];
        destruct (decide (d ∈ x :: out)) as [Hin'|Hn']; try reflexivity.
      * exfalso. apply Hn'. right. exact Hin.
      * exfalso. apply elem_of_cons in Hin' as [?|?]; contradiction.
Qed.

(** A call that passes its checks sends the request of its branch. *)
Lemma region_branch_sends a w p o fun_ g :
  check_mode (mode a) = Ok tt ->
  check_polar (polar a) = Ok p ->
  check_orbit (orbit a) = Ok o ->
  is_Some_b (radius a) || is_Some_b (feature a) = true ->
  reducer_of_stats (stats a) = Ok fun_ ->
  region_geometry a = Ok g ->
  requests (snd (ts_extract remote simplify dictify a w))
  = requests w
    ++ [map_reduce_region (select (filterBounds (sentinel_ic a o) g) p) fun_ g 10].
Proof.
  intros H1 H2 H3 H4 H5 H6.
  rewrite (run_region_branch _ _ _ _ H1 H2 H3 H4), H5, H6. cbv zeta.
  match goal with |- context [remote ?q'] => set (q0 := q') end.
  destruct (remote q0) as [fc|[]]; try destruct (simplify fc (heap w));
    reflexivity.
Qed.

Lemma point_branch_sends a w p o :
  check_mode (mode a) = Ok tt ->
  check_polar (polar a) = Ok p ->
  check_orbit (orbit a) = Ok o ->
  is_Some_b (radius a) || is_Some_b (feature a) = false ->
  requests (snd (ts_extract remote simplify dictify a w))
  = requests w
    ++ [getRegion
          (select (filterBounds (sentinel_ic a o)
                     (Geometry_Point (lon a) (lat a))) p)
          (Geometry_Point (lon a) (lat a)) 10].
Proof.
  intros H1 H2 H3 H4.
  rewrite (run_point_branch _ _ _ _ H1 H2 H3 H4). cbv zeta.
  match goal with |- context [remote ?q'] => set (q0 := q') end.
  destruct (remote q0) as [l|[]];
    try (destruct (dictify l (heap w)) as [[out|e] h]); reflexivity.
Qed.

(** *** The claims about [ts_extract] *)

(** C5: a call whose [mode] is not one of IW, EW, SM raises [ValueError]
    with the message that names the three modes, whatever the other
    arguments are; the world is as before the call, so no request has been
    sent. *)
Theorem ts_extract_unknown_mode a w :
  str_in (mode a) MODES = false ->
  ts_extract remote simplify dictify a w
  = (Raise (ValueError (unknown_mode (mode a))), w)
  /\ unknown_mode (mode a)
     = ("Unknown mode '" ++ mode a
        ++ "' (Must be one of ['IW', 'EW', 'SM'])")%string.
Proof.
  intros H. split; [|reflexivity].
  apply rejected_by_mode_check, check_mode_unknown, H.
Qed.

(** C7: [stats] is looked at in the region branch only. There (radius or
    feature given, the checks of mode, polar and orbit passed) a value
    other than mean, median, max, min raises [ValueError] with the message
    that names the four, and the world is as before the call: the query has
    not been executed. In point mode (no radius, no feature) the call does
    the same whatever [stats] is. *)
Theorem ts_extract_stats a w :
  (forall p o,
     check_mode (mode a) = Ok tt ->
     check_polar (polar a) = Ok p ->
     check_orbit (orbit a) = Ok o ->
     is_Some_b (radius a) || is_Some_b (feature a) = true ->
     str_in (stats a) ["mean"; "median"; "max"; "min"] = false ->
     ts_extract remote simplify dictify a w
     = (Raise (ValueError
          "Unknown spatial aggregation function. Must be one of mean, median, max, or min"),
        w))
  /\ (radius a = None -> feature a = None ->
      forall s, ts_extract remote simplify dictify (set_stats s a) w
                = ts_extract remote simplify dictify a w).
Proof.
  split.
  - intros p o H1 H2 H3 H4 H5.
    rewrite (run_region_branch _ _ _ _ H1 H2 H3 H4).
    rewrite (reducer_of_stats_unknown _ H5). reflexivity.
  - intros Hr Hf s. unfold ts_extract, set_stats. cbn [mode polar orbit radius
      feature start end_ lon lat]. rewrite Hr, Hf. reflexivity.
Qed.

(** C2, amended: when the request that a call sent makes the platform raise
    [ee.EEException], whatever its message, the call raises [ValueError]
    with the no-data message, which carries nothing of the original error;
    an exception of any other class is the outcome of the call, unchanged. *)
Theorem ts_extract_remote_failure a w q :
  requests (snd (ts_extract remote simplify dictify a w)) = requests w ++ [q] ->
  (forall msg, remote q = Raise (EEException msg) ->
     fst (ts_extract remote simplify dictify a w) = Raise (ValueError no_data))
  /\ (forall e, remote q = Raise e -> (forall msg, e <> EEException msg) ->
        fst (ts_extract remote simplify dictify a w) = Raise e).
Proof.
  intros Hs. split.
  - intros msg Hq. rewrite (failed_request_outcome _ _ _ _ Hs Hq). reflexivity.
  - intros e Hq Hne. rewrite (failed_request_outcome _ _ _ _ Hs Hq).
    destruct e; try reflexivity. destruct (Hne msg eq_refl).
Qed.

Lemma filters_of_sentinel_ic a (o : option string) (g : geometry number)
    (p : list string) :
  filters_of (select (filterBounds (sentinel_ic a o) g) p)
  = Filter_eq "instrumentMode" (mode a)
    :: match o with
       | Some n => [Filter_eq "orbitProperties_pass" n]
       | None => []
       end.
Proof. destruct o; reflexivity. Qed.

(** The orbit filters of the request of a call. *)
Lemma sent_orbit_filters a w q :
  requests (snd (ts_extract remote simplify dictify a w)) = requests w ++ [q] ->
  exists o, check_orbit (orbit a) = Ok o /\
            orbit_filters q = match o with Some n => [n] | None => [] end.
Proof.
  intros Hs.
  destruct (sent_request_inv _ _ _ Hs)
    as (p & o & H1 & H2 & H3 & [[H4 (fun_ & g & H5 & H6 & ->)]|[H4 ->]]);
    exists o; (split; [exact H3|]);
    unfold orbit_filters; cbn [computed_collection];
    rewrite filters_of_sentinel_ic; destruct o; reflexivity.
Qed.

(** C6: without [orbit], the request of the call has no filter on the orbit
    pass; with an [orbit] other than 0 and 1 the call raises [ValueError]
    and sends nothing, and when mode and polar are valid the message is the
    one about the orbit; with 0 the request filters on ASCENDING, with 1 on
    DESCENDING. *)
Theorem ts_extract_orbit a w :
  (orbit a = None ->
   forall q, requests (snd (ts_extract remote simplify dictify a w))
             = requests w ++ [q] ->
             orbit_filters q = [])
  /\ (forall o, orbit a = Some o -> int_in o [0; 1]%Z = false ->
      exists msg,
        ts_extract remote simplify dictify a w = (Raise (ValueError msg), w)
        /\ (forall p, check_mode (mode a) = Ok tt ->
                      check_polar (polar a) = Ok p ->
                      msg = unknown_orbit o))
  /\ (orbit a = Some 0%Z ->
      forall q, requests (snd (ts_extract remote simplify dictify a w))
                = requests w ++ [q] ->
                orbit_filters q = ["ASCENDING"])
  /\ (orbit a = Some 1%Z ->
      forall q, requests (snd (ts_extract remote simplify dictify a w))
                = requests w ++ [q] ->
                orbit_filters q = ["DESCENDING"]).
Proof.
  repeat split.
  - intros Ho q Hs. destruct (sent_orbit_filters _ _ _ Hs) as (o & H3 & ->).
    rewrite Ho in H3. simpl in H3. injection H3 as <-. reflexivity.
  - intros o Ho Hbad.
    destruct (check_mode (mode a)) as [[]|e] eqn:H1.
    2: { apply check_mode_raise in H1 as He. subst e.
         eexists. split; [apply rejected_by_mode_check, H1|].
         intros p [=]. }
    destruct (check_polar (polar a)) as [p|e] eqn:H2.
    2: { destruct (check_polar_raise _ _ H2) as [msg ->].
         exists msg. split; [apply rejected_by_polar_check; assumption|].
         intros p _ [=]. }
    exists (unknown_orbit o). split; [|reflexivity].
    apply (rejected_by_orbit_check _ _ p); try assumption.
    rewrite Ho. apply check_orbit_unknown, Hbad.
  - intros Ho q Hs. destruct (sent_orbit_filters _ _ _ Hs) as (o & H3 & ->).
    rewrite Ho in H3. simpl in H3. injection H3 as <-. reflexivity.
  - intros Ho q Hs. destruct (sent_orbit_filters _ _ _ Hs) as (o & H3 & ->).
    rewrite Ho in H3. simpl in H3. injection H3 as <-. reflexivity.
Qed.

(** C8: in point mode, when the platform answers and [dictify] returns the
    dict objects [out], the call returns [out]; afterwards every dict of
    [out] has no longitude, latitude or time key, and each of its other keys
    has the value that [dictify] gave it. Dict objects that are not in
    [out] are as [dictify] left them. *)
Theorem ts_extract_point_strips a w p o l out h1 :
  check_mode (mode a) = Ok tt ->
  check_polar (polar a) = Ok p ->
  check_orbit (orbit a) = Ok o ->
  radius a = None -> feature a = None ->
  remote (getRegion
            (select (filterBounds (sentinel_ic a o)
                       (Geometry_Point (lon a) (lat a))) p)
            (Geometry_Point (lon a) (lat a)) 10) = Ok l ->
  dictify l (heap w) = (Ok out, h1) ->
  exists w',
    ts_extract remote simplify dictify a w = (Ok out, w')
    /\ (forall d rec, In d out -> h1 !! d = Some rec ->
        exists rec',
          heap w' !! d = Some rec'
          /\ rec' !! "longitude" = None
          /\ rec' !! "latitude" = None
          /\ rec' !! "time" = None
          /\ forall k, k <> "longitude" -> k <> "latitude" -> k <> "time" ->
                       rec' !! k = rec !! k)
    /\ (forall d, ~ In d out -> heap w' !! d = h1 !! d).
Proof.
  intros H1 H2 H3 Hr Hf Hq Hd.
  assert (is_Some_b (radius a) || is_Some_b (feature a) = false) as H4
    by (rewrite Hr, Hf; reflexivity).
  rewrite (run_point_branch _ _ _ _ H1 H2 H3 H4). cbv zeta. rewrite Hq, Hd.
  eexists. split; [reflexivity|]. cbn [heap]. split.
  - intros d rec Hin Hrec. apply list_elem_of_In in Hin.
    rewrite !pop_each_lookup. rewrite !decide_True by exact Hin.
    rewrite Hrec. cbn [fmap option_fmap option_map].
    eexists. split; [reflexivity|].
    repeat split.
    + rewrite !lookup_delete_ne by discriminate. apply lookup_delete_eq.
    + rewrite lookup_delete_ne by discriminate. apply lookup_delete_eq.
    + apply lookup_delete_eq.
    + intros k K1 K2 K3. rewrite !lookup_delete_ne by congruence. reflexivity.
  - intros d Hn. rewrite !pop_each_lookup.
    rewrite !decide_False by (rewrite list_elem_of_In; exact Hn). reflexivity.
Qed.

(** C10: with both a feature and a radius, and valid mode, polar, orbit and
    stats, the call sends its request, whose geometry, also the one that
    bounds the collection, is the polygon of the coordinates of the
    feature; and the call does the same whatever the radius is, given or
    not. *)
Theorem ts_extract_feature_and_radius a w f r p o fun_ g c :
  feature a = Some f -> radius a = Some r ->
  check_mode (mode a) = Ok tt ->
  check_polar (polar a) = Ok p ->
  check_orbit (orbit a) = Ok o ->
  reducer_of_stats (stats a) = Ok fun_ ->
  getitem f "geometry" = Ok g -> getitem g "coordinates" = Ok c ->
  requests (snd (ts_extract remote simplify dictify a w))
  = requests w
    ++ [map_reduce_region
          (select (filterBounds (sentinel_ic a o) (Geometry_Polygon c)) p)
          fun_ (Geometry_Polygon c) 10]
  /\ forall r', ts_extract remote simplify dictify (set_radius r' a) w
                = ts_extract remote simplify dictify a w.
Proof.
  intros Hf Hr H1 H2 H3 H5 Hg Hc. split.
  - apply region_branch_sends; try assumption.
    + rewrite Hr. reflexivity.
    + unfold region_geometry. rewrite Hf, Hg. cbn [bindR]. rewrite Hc.
      reflexivity.
  - intros r'. unfold ts_extract, set_radius. cbn [mode polar orbit radius
      feature start end_ lon lat stats]. rewrite Hf.
    rewrite !orb_true_r. reflexivity.
Qed.

(** The end of the date interval of a call that leaves [end] out is the
    reading of the clock when the [def] statement ran, whatever the clock
    reads at the call. *)
Lemma default_end_is_def_time (w0 w0' : world number) (d : defaults) a w q :
  def_ts_extract w0 = (Ok d, w0') ->
  end_ a = default_end d ->
  requests (snd (ts_extract remote simplify dictify a w)) = requests w ++ [q] ->
  dates_of (computed_collection q) = [(start a, now w0)].
Proof.
  unfold def_ts_extract. intros [= <- _] He Hs. cbn [default_end] in He.
  destruct (sent_request_inv _ _ _ Hs)
    as (p & o & H1 & H2 & H3 & [[H4 (fun_ & g & H5 & H6 & ->)]|[H4 ->]]);
    destruct o; cbn; rewrite He; reflexivity.
Qed.

End ExtractProperties.

(** ** The claims at the sample calls *)

(** C3 (the code at [polar='HH']): a list that holds HH is refused by the
    check, but the single value HH passes it and becomes the list [['HH']];
    the call then sends the request that selects band HH, and its outcome is
    what the platform and [simplify] make of it. With a platform that finds
    no image the call returns the empty list: no error is raised. The call
    of the test suite for this case also passes [stats='mode'], and it is
    that value which makes it raise. *)
Theorem ts_extract_polar_HH_not_checked :
  check_polar (PolarList ["HH"]) = Raise (ValueError (unknown_polarization "HH"))
  /\ check_polar (polar call_polar_HH) = Ok ["HH"]
  /\ (forall remote simplify dictify w,
      exists q,
        selectors_of (computed_collection q) = [["HH"]]
        /\ ts_extract remote simplify dictify call_polar_HH w
           = match remote q with
             | Raise (EEException _) => (Raise (ValueError no_data), sent q w)
             | Raise e => (Raise e, sent q w)
             | Ok fc =>
                 let '(r, h) := simplify fc (heap w) in
                 (r, World (now w) h (requests w ++ [q]))
             end)
  /\ fst (ts_extract platform_sample sample_simplify sample_dictify
            call_polar_HH world0) = Ok []
  /\ fst (ts_extract platform_sample sample_simplify sample_dictify
            call_polar_HH_test world0) = Raise (ValueError unknown_stats).
Proof.
  split; [reflexivity|]. split; [reflexivity|].
  split; [|split; reflexivity].
  intros remote simplify dictify w. eexists. split.
  2: { rewrite (run_region_branch remote simplify dictify call_polar_HH w
                  ["HH"] None eq_refl eq_refl eq_refl eq_refl).
       reflexivity. }
  reflexivity.
Qed.

(** C9 (the code when the module is imported on one day and called on a
    later one): the [def] statement reads the clock on 2019-01-01; the call
    of the docstring, made on 2019-06-01 without [end], sends a request
    whose date interval ends on 2019-01-01, not on the day of the call. *)
Theorem ts_extract_end_is_read_at_def :
  forall remote simplify dictify,
  exists d q,
    def_ts_extract at_import = (Ok d, at_import)
    /\ requests (snd (ts_extract remote simplify dictify (call_docstring d) at_call))
       = [q]
    /\ dates_of (computed_collection q)
       = [(Datetime 2018 1 1 0 0 0 0, Datetime 2019 1 1 9 0 0 0)]
    /\ date_of (now at_call) = Date 2019 6 1.
Proof.
  intros remote simplify dictify.
  exists (Defaults (Datetime 2019 1 1 9 0 0 0)). eexists.
  split; [reflexivity|]. split.
  - apply (region_branch_sends remote simplify dictify
             (call_docstring (Defaults (Datetime 2019 1 1 9 0 0 0))) at_call
             ["VV"; "VH"] None Reducer_mean _ eq_refl eq_refl eq_refl eq_refl
             eq_refl eq_refl).
  - split; reflexivity.
Qed.

(** C2, as stated, fails: the platform raises [ee.EEException] for a
    computation that timed out, which is not a lack of data, and the call
    raises the no-data [ValueError] instead of letting it through. *)
Lemma ts_extract_timeout_not_propagated :
  (forall c, platform_timeout c = Raise (EEException "Computation timed out."))
  /\ fst (ts_extract platform_timeout sample_simplify sample_dictify
            call_point world0)
     = Raise (ValueError no_data)
  /\ fst (ts_extract platform_timeout sample_simplify sample_dictify
            call_point world0)
     <> Raise (EEException "Computation timed out.").
Proof.
  split; [reflexivity|]. split; [reflexivity|]. discriminate.
Qed.

(** ** Witnesses *)

Lemma ts_extract_unknown_mode_witness :
  str_in (mode call_mode_empty) MODES = false
  /\ ts_extract platform_sample sample_simplify sample_dictify
       call_mode_empty world0
     = (Raise (ValueError "Unknown mode '' (Must be one of ['IW', 'EW', 'SM'])"),
        world0).
Proof.
  split; [reflexivity|].
  apply (ts_extract_unknown_mode platform_sample sample_simplify sample_dictify
           call_mode_empty world0).
  reflexivity.
Defined.

Lemma ts_extract_stats_witness :
  ts_extract platform_sample sample_simplify sample_dictify call_stats_mode world0
  = (Raise (ValueError
       "Unknown spatial aggregation function. Must be one of mean, median, max, or min"),
     world0)
  /\ ts_extract platform_sample sample_simplify sample_dictify
       (set_stats "mode" call_point) world0
     = ts_extract platform_sample sample_simplify sample_dictify
         call_point world0.
Proof.
  split.
  - apply (proj1 (ts_extract_stats platform_sample sample_simplify
                    sample_dictify call_stats_mode world0)
             ["VV"; "VH"] None);
      reflexivity.
  - apply (proj2 (ts_extract_stats platform_sample sample_simplify
                    sample_dictify call_point world0));
      reflexivity.
Defined.

Lemma ts_extract_remote_failure_witness :
  fst (ts_extract platform_timeout sample_simplify sample_dictify
         call_point_ascending world0)
  = Raise (ValueError no_data)
  /\ fst (ts_extract platform_unreachable sample_simplify sample_dictify
            call_radius_descending world0)
     = Raise (OtherException "ConnectionError" "Connection refused").
Proof.
  split.
  - eapply (proj1 (ts_extract_remote_failure platform_timeout sample_simplify
                     sample_dictify call_point_ascending world0 _ eq_refl)).
    reflexivity.
  - eapply (proj2 (ts_extract_remote_failure platform_unreachable
                     sample_simplify sample_dictify call_radius_descending
                     world0 _ eq_refl)).
    + reflexivity.
    + discriminate.
Defined.

Lemma ts_extract_orbit_witness :
  (exists q,
     requests (snd (ts_extract platform_sample sample_simplify sample_dictify
                      call_point world0)) = [q]
     /\ orbit_filters q = [])
  /\ (exists msg,
        ts_extract platform_sample sample_simplify sample_dictify
          call_orbit_2 world0
        = (Raise (ValueError msg), world0))
  /\ (exists q,
        requests (snd (ts_extract platform_sample sample_simplify sample_dictify
                         call_point_ascending world0)) = [q]
        /\ orbit_filters q = ["ASCENDING"])
  /\ (exists q,
        requests (snd (ts_extract platform_sample sample_simplify sample_dictify
                         call_radius_descending world0)) = [q]
        /\ orbit_filters q = ["DESCENDING"]).
Proof.
  repeat split.
  - eexists. split; [reflexivity|].
    apply (proj1 (ts_extract_orbit platform_sample sample_simplify
                    sample_dictify call_point world0) eq_refl _ eq_refl).
  - destruct (proj1 (proj2 (ts_extract_orbit platform_sample sample_simplify
                              sample_dictify call_orbit_2 world0))
                2%Z eq_refl eq_refl) as [msg [H _]].
    exists msg. exact H.
  - eexists. split; [reflexivity|].
    apply (proj1 (proj2 (proj2 (ts_extract_orbit platform_sample sample_simplify
                                  sample_dictify call_point_ascending world0)))
             eq_refl _ eq_refl).
  - eexists. split; [reflexivity|].
    apply (proj2 (proj2 (proj2 (ts_extract_orbit platform_sample sample_simplify
                                  sample_dictify call_radius_descending world0)))
             eq_refl _ eq_refl).
Defined.

Lemma ts_extract_point_strips_witness :
  exists w',
    ts_extract platform_sample sample_simplify sample_dictify call_point world0
    = (Ok [2%positive; 3%positive], w')
    /\ (forall d rec, In d [2%positive; 3%positive] ->
        sample_heap !! d = Some rec ->
        exists rec',
          heap w' !! d = Some rec'
          /\ rec' !! "longitude" = None
          /\ rec' !! "latitude" = None
          /\ rec' !! "time" = None
          /\ forall k, k <> "longitude" -> k <> "latitude" -> k <> "time" ->
                       rec' !! k = rec !! k)
    /\ (forall d, ~ In d [2%positive; 3%positive] ->
        heap w' !! d = sample_heap !! d).
Proof.
  apply (ts_extract_point_strips platform_sample sample_simplify sample_dictify
           call_point world0 ["VV"; "VH"] None sample_table
           [2%positive; 3%positive] sample_heap);
    reflexivity.
Defined.

Lemma ts_extract_feature_and_radius_witness :
  requests (snd (ts_extract platform_sample sample_simplify sample_dictify
                   call_feature_radius world0))
  = [map_reduce_region
       (select (filterBounds (sentinel_ic call_feature_radius None)
                  (Geometry_Polygon square)) ["VV"; "VH"])
       Reducer_median (Geometry_Polygon square) 10]
  /\ forall r', ts_extract platform_sample sample_simplify sample_dictify
                  (set_radius r' call_feature_radius) world0
                = ts_extract platform_sample sample_simplify sample_dictify
                    call_feature_radius world0.
Proof.
  apply (ts_extract_feature_and_radius platform_sample sample_simplify
           sample_dictify call_feature_radius world0 square_feature
           (Decimal 500 0) ["VV"; "VH"] None Reducer_median
           (PDict {[ "type" := PStr "Polygon"; "coordinates" := square ]})
           square);
    reflexivity.
Defined.

Lemma get_date_unknown_pattern_witness :
  get_date doc_example false = Raise (ValueError "Unknown pattern").
Proof.
  apply (proj1 (get_date_unknown_pattern doc_example false)).
  intros i. apply p0_needs_nl, documented_grammar_no_nl. reflexivity.
Defined.

(** * Further properties *)

(** ** The matcher: bounds, groups, widths, surrounding text *)

Lemma get_Some_lt (s : string) (i : nat) (c : ascii) :
  String.get i s = Some c -> i < String.length s.
Proof.
  intros H. destruct (le_lt_dec (String.length s) i) as [Hi|Hi]; [|exact Hi].
  rewrite (get_beyond s i Hi) in H. discriminate.
Qed.

Lemma get_app_l (s t : string) (i : nat) :
  i < String.length s -> String.get i (s ++ t) = String.get i s.
Proof. intros H. symmetry. apply String.append_correct1, H. Qed.

Lemma get_app_r (s t : string) (i : nat) :
  String.get (String.length s + i) (s ++ t) = String.get i t.
Proof. rewrite Nat.add_comm. symmetry. apply String.append_correct2. Qed.

Lemma substring_app_r (pre t : string) (a n : nat) :
  String.substring (String.length pre + a) n (pre ++ t) = String.substring a n t.
Proof. induction pre as [|c pre IH]; simpl; [reflexivity|exact IH]. Qed.

Lemma substring_app_l (s t : string) :
  forall a n, a + n <= String.length s ->
    String.substring a n (s ++ t) = String.substring a n s.
Proof.
  induction s as [|c s IH]; intros a n H; simpl in *.
  - assert (a = 0) by lia. assert (n = 0) by lia. subst.
    destruct t; reflexivity.
  - destruct a as [|a].
    + destruct n as [|n]; [reflexivity|]. f_equal. apply IH. simpl. lia.
    + apply IH. lia.
Qed.

Lemma lookup_group_app (name : string) (g1 g2 : Re.captures) :
  Re.lookup_group name (g1 ++ g2)
  = match Re.lookup_group name g1 with
    | Some sp => Some sp
    | None => Re.lookup_group name g2
    end.
Proof.
  induction g1 as [|[n sp] g1 IH]; simpl; [reflexivity|].
  destruct (String.eqb n name); [reflexivity|exact IH].
Qed.

Lemma lookup_group_In (name : string) (g : Re.captures) (sp : nat * nat) :
  Re.lookup_group name g = Some sp -> exists n, In (n, sp) g.
Proof.
  induction g as [|[n sp'] g IH]; simpl; [discriminate|].
  destruct (String.eqb n name).
  - intros [= ->]. exists n. left. reflexivity.
  - intros H. destruct (IH H) as [n' Hn']. exists n'. right. exact Hn'.
Qed.

(** A match of a sequence: its groups are those of the first part followed
    by those of the rest. *)
Lemma in_seq_matches_app (m1 m2 : nat -> list (Re.captures * nat)) (i : nat)
    (g : Re.captures) (k : nat) :
  In (g, k)
     (flat_map (fun '(g1, j) => List.map (fun '(g2, k) => (g1 ++ g2, k)) (m2 j))
               (m1 i)) ->
  exists g1 j g2, g = g1 ++ g2 /\ In (g1, j) (m1 i) /\ In (g2, k) (m2 j).
Proof.
  intros H. apply in_flat_map in H as [[g1 j] [H1 H2]].
  apply in_map_iff in H2 as [[g2 k'] [E H2]].
  inversion E; subst. eauto 6.
Qed.

(** Every match of a pattern that defines a group has that group. *)
Lemma defines_lookup (name : string) (s : string) (r : Re.regex) :
  defines name r = true ->
  forall i g j, In (g, j) (Re.rmatch r s i) ->
    exists sp, Re.lookup_group name g = Some sp.
Proof.
  induction r as [c'|p|r1 IH1 r2 IH2|r1 IH1 r2 IH2|n r1 IH1|nm r1 IH1|];
    intros Hd i g j Hin; simpl in Hd; try discriminate.
  - simpl in Hin.
    apply (in_seq_matches_app (Re.rmatch r1 s) (Re.rmatch r2 s)) in Hin
      as (g1 & j1 & g2 & -> & H1 & H2).
    rewrite lookup_group_app.
    destruct (Re.lookup_group name g1) as [sp|] eqn:E1; [eauto|].
    apply orb_true_iff in Hd as [Hd|Hd].
    + destruct (IH1 Hd _ _ _ H1) as [sp Hsp]. congruence.
    + exact (IH2 Hd _ _ _ H2).
  - apply andb_true_iff in Hd as [Hd1 Hd2].
    simpl in Hin. apply in_app_or in Hin as [Hin|Hin]; eauto.
  - destruct n as [|n]; [discriminate|].
    rewrite rmatch_Rep_S in Hin.
    apply (in_seq_matches_app (Re.rmatch r1 s) (Re.rmatch (Re.Rep n r1) s)) in Hin
      as (g1 & j1 & g2 & -> & H1 & H2).
    rewrite lookup_group_app.
    destruct (IH1 Hd _ _ _ H1) as [sp ->]. eauto.
  - simpl in Hin. apply in_map_iff in Hin as [[g1 j1] [E H1]].
    inversion E; subst. simpl.
    destruct (String.eqb nm name) eqn:En; [eauto|].
    simpl in Hd. exact (IH1 Hd _ _ _ H1).
Qed.

(** A match lies inside the string, after the position where it was tried,
    and so do its groups. *)
Lemma rmatch_bounds (s : string) (r : Re.regex) :
  forall i g j, In (g, j) (Re.rmatch r s i) ->
    i <= j /\ (i <= String.length s -> j <= String.length s)
    /\ forall n a b, In (n, (a, b)) g -> i <= a /\ a <= b /\ b <= j.
Proof.
  induction r as [c'|p|r1 IH1 r2 IH2|r1 IH1 r2 IH2|n r1 IH1|nm r1 IH1|];
    intros i g j Hin.
  - simpl in Hin. destruct (String.get i s) as [x|] eqn:Hx; [|contradiction].
    apply get_Some_lt in Hx.
    destruct (Ascii.eqb c' x); [|contradiction].
    destruct Hin as [Hin|[]]. inversion Hin; subst.
    split; [lia|]. split; [intros; lia|]. intros ? ? ? [].
  - simpl in Hin. destruct (String.get i s) as [x|] eqn:Hx; [|contradiction].
    apply get_Some_lt in Hx.
    destruct (p x); [|contradiction].
    destruct Hin as [Hin|[]]. inversion Hin; subst.
    split; [lia|]. split; [intros; lia|]. intros ? ? ? [].
  - simpl in Hin.
    apply (in_seq_matches_app (Re.rmatch r1 s) (Re.rmatch r2 s)) in Hin
      as (g1 & j1 & g2 & -> & H1 & H2).
    destruct (IH1 _ _ _ H1) as (L1 & U1 & G1).
    destruct (IH2 _ _ _ H2) as (L2 & U2 & G2).
    split; [lia|]. split; [intros; apply U2, U1; assumption|].
    intros n a b Hab. apply in_app_or in Hab as [Hab|Hab].
    + destruct (G1 _ _ _ Hab). lia.
    + destruct (G2 _ _ _ Hab). lia.
  - simpl in Hin. apply in_app_or in Hin as [Hin|Hin]; eauto.
  - revert i g j Hin. induction n as [|n IHn]; intros i g j Hin.
    + rewrite rmatch_Rep_0 in Hin. destruct Hin as [Hin|[]].
      inversion Hin; subst. split; [lia|]. split; [intros; lia|]. intros ? ? ? [].
    + rewrite rmatch_Rep_S in Hin.
      apply (in_seq_matches_app (Re.rmatch r1 s) (Re.rmatch (Re.Rep n r1) s))
        in Hin as (g1 & j1 & g2 & -> & H1 & H2).
      destruct (IH1 _ _ _ H1) as (L1 & U1 & G1).
      destruct (IHn _ _ _ H2) as (L2 & U2 & G2).
      split; [lia|]. split; [intros; apply U2, U1; assumption|].
      intros nm a b Hab. apply in_app_or in Hab as [Hab|Hab].
      * destruct (G1 _ _ _ Hab). lia.
      * destruct (G2 _ _ _ Hab). lia.
  - simpl in Hin. apply in_map_iff in Hin as [[g1 j1] [E H1]].
    inversion E; subst.
    destruct (IH1 _ _ _ H1) as (L1 & U1 & G1).
    split; [lia|]. split; [exact U1|].
    intros n a b [Hab|Hab].
    + inversion Hab; subst. lia.
    + exact (G1 _ _ _ Hab).
  - simpl in Hin. destruct Hin as [Hin|[]]. inversion Hin; subst.
    split; [lia|]. split; [intros; lia|]. intros ? ? ? [].
Qed.

(** All matches of a pattern of width [n] are [n] characters long. *)
Lemma rmatch_width (s : string) (r : Re.regex) :
  forall n i g j, width r = Some n -> In (g, j) (Re.rmatch r s i) -> j = i + n.
Proof.
  induction r as [c'|p|r1 IH1 r2 IH2|r1 IH1 r2 IH2|k r1 IH1|nm r1 IH1|];
    intros n i g j Hw Hin; simpl in Hw.
  - injection Hw as <-. simpl in Hin.
    destruct (String.get i s) as [x|]; [|contradiction].
    destruct (Ascii.eqb c' x); [|contradiction].
    destruct Hin as [Hin|[]]. inversion Hin; lia.
  - injection Hw as <-. simpl in Hin.
    destruct (String.get i s) as [x|]; [|contradiction].
    destruct (p x); [|contradiction].
    destruct Hin as [Hin|[]]. inversion Hin; lia.
  - destruct (width r1) as [a|]; [|discriminate].
    destruct (width r2) as [b|]; [|discriminate]. injection Hw as <-.
    simpl in Hin.
    apply (in_seq_matches_app (Re.rmatch r1 s) (Re.rmatch r2 s)) in Hin
      as (g1 & j1 & g2 & -> & H1 & H2).
    rewrite (IH2 _ _ _ _ eq_refl H2), (IH1 _ _ _ _ eq_refl H1). lia.
  - destruct (width r1) as [a|]; [|discriminate].
    destruct (width r2) as [b|]; [|discriminate].
    destruct (Nat.eqb a b) eqn:E; [|discriminate]. injection Hw as <-.
    apply Nat.eqb_eq in E. subst b.
    simpl in Hin. apply in_app_or in Hin as [Hin|Hin]; eauto.
  - destruct (width r1) as [a|]; [|discriminate]. injection Hw as <-.
    revert i g j Hin. induction k as [|k IHk]; intros i g j Hin.
    + rewrite rmatch_Rep_0 in Hin. destruct Hin as [Hin|[]].
      inversion Hin; lia.
    + rewrite rmatch_Rep_S in Hin.
      apply (in_seq_matches_app (Re.rmatch r1 s) (Re.rmatch (Re.Rep k r1) s))
        in Hin as (g1 & j1 & g2 & -> & H1 & H2).
      rewrite (IHk _ _ _ H2), (IH1 _ _ _ _ eq_refl H1). lia.
  - simpl in Hin. apply in_map_iff in Hin as [[g1 j1] [E H1]].
    inversion E; subst. eauto.
  - injection Hw as <-. simpl in Hin. destruct Hin as [Hin|[]].
    inversion Hin; lia.
Qed.

Lemma flat_map_ext_In {A B : Type} (f f' : A -> list B) (l : list A) :
  (forall x, In x l -> f x = f' x) -> flat_map f l = flat_map f' l.
Proof.
  induction l as [|x l IH]; intros H; simpl; [reflexivity|].
  rewrite (H x (or_introl eq_refl)), IH; [reflexivity|].
  intros y Hy. apply H. right. exact Hy.
Qed.

(** Text after the characters that a pattern of fixed width reads does not
    change its matches. *)
Lemma rmatch_app_l (s post : string) (r : Re.regex) :
  forall n i, width r = Some n -> i + n <= String.length s ->
    Re.rmatch r (s ++ post) i = Re.rmatch r s i.
Proof.
  induction r as [c'|p|r1 IH1 r2 IH2|r1 IH1 r2 IH2|k r1 IH1|nm r1 IH1|];
    intros n i Hw Hi; simpl in Hw.
  - injection Hw as <-. simpl. rewrite get_app_l by lia. reflexivity.
  - injection Hw as <-. simpl. rewrite get_app_l by lia. reflexivity.
  - destruct (width r1) as [a|] eqn:W1; [|discriminate].
    destruct (width r2) as [b|] eqn:W2; [|discriminate]. injection Hw as <-.
    simpl. rewrite (IH1 a i eq_refl) by lia.
    apply flat_map_ext_In. intros [g1 j] Hin.
    rewrite (rmatch_width s r1 a i g1 j W1 Hin).
    rewrite (IH2 b _ eq_refl) by lia. reflexivity.
  - destruct (width r1) as [a|] eqn:W1; [|discriminate].
    destruct (width r2) as [b|] eqn:W2; [|discriminate].
    destruct (Nat.eqb a b) eqn:E; [|discriminate]. injection Hw as <-.
    apply Nat.eqb_eq in E. subst b.
    simpl. rewrite (IH1 a i eq_refl), (IH2 a i eq_refl) by lia. reflexivity.
  - destruct (width r1) as [a|] eqn:W1; [|discriminate]. injection Hw as <-.
    revert i Hi. induction k as [|k IHk]; intros i Hi.
    + reflexivity.
    + rewrite !rmatch_Rep_S. rewrite (IH1 a i eq_refl) by lia.
      apply flat_map_ext_In. intros [g1 j] Hin.
      rewrite (rmatch_width s r1 a i g1 j W1 Hin).
      rewrite IHk by lia. reflexivity.
  - simpl. rewrite (IH1 n i Hw Hi). reflexivity.
  - reflexivity.
Qed.

Lemma shift_match_seq (n : nat) (m2 m2' : nat -> list (Re.captures * nat))
    (l1 : list (Re.captures * nat)) :
  (forall j, m2' (n + j) = List.map (shift_match n) (m2 j)) ->
  flat_map (fun '(g1, j) => List.map (fun '(g2, k) => (g1 ++ g2, k)) (m2' j))
           (List.map (shift_match n) l1)
  = List.map (shift_match n)
      (flat_map (fun '(g1, j) => List.map (fun '(g2, k) => (g1 ++ g2, k)) (m2 j))
                l1).
Proof.
  intros H. induction l1 as [|[g1 j] l1 IH]; [reflexivity|].
  cbn [flat_map List.map]. rewrite List.map_app, IH. f_equal.
  unfold shift_match at 1. cbn [fst snd]. rewrite H, !List.map_map.
  apply List.map_ext. intros [g2 k]. unfold shift_match. cbn [fst snd].
  rewrite List.map_app. reflexivity.
Qed.

(** Text before the position where a pattern is tried shifts its matches
    and changes nothing else. *)
Lemma rmatch_app_r (pre s : string) (r : Re.regex) :
  forall i,
    Re.rmatch r (pre ++ s) (String.length pre + i)
    = List.map (shift_match (String.length pre)) (Re.rmatch r s i).
Proof.
  induction r as [c'|p|r1 IH1 r2 IH2|r1 IH1 r2 IH2|k r1 IH1|nm r1 IH1|];
    intros i.
  - simpl. rewrite get_app_r. destruct (String.get i s) as [x|]; [|reflexivity].
    destruct (Ascii.eqb c' x); [|reflexivity].
    unfold shift_match. simpl. rewrite Nat.add_succ_r. reflexivity.
  - simpl. rewrite get_app_r. destruct (String.get i s) as [x|]; [|reflexivity].
    destruct (p x); [|reflexivity].
    unfold shift_match. simpl. rewrite Nat.add_succ_r. reflexivity.
  - simpl. rewrite IH1. apply shift_match_seq. exact IH2.
  - simpl. rewrite IH1, IH2, List.map_app. reflexivity.
  - revert i. induction k as [|k IHk]; intros i.
    + reflexivity.
    + rewrite !rmatch_Rep_S, IH1. apply shift_match_seq. exact IHk.
  - simpl. rewrite IH1, !List.map_map. apply List.map_ext.
    intros [g j]. reflexivity.
  - reflexivity.
Qed.

(** The first position where the pattern matches is where [search] finds
    its match. *)
Lemma search_at_first (p : Re.regex) (s : string) (l1 l2 : list nat)
    (k : nat) (g : Re.captures) (j : nat) (rest : list (Re.captures * nat)) :
  (forall i, In i l1 -> Re.rmatch p s i = []) ->
  Re.rmatch p s k = (g, j) :: rest ->
  Re.search_at p s (l1 ++ k :: l2) = Some (Re.MatchObj s k j g).
Proof.
  intros H1 Hk. induction l1 as [|i l1 IH]; simpl.
  - rewrite Hk. reflexivity.
  - rewrite (H1 i (or_introl eq_refl)). apply IH.
    intros i' Hi'. apply H1. right. exact Hi'.
Qed.

Lemma search_first (p : Re.regex) (s : string) (k : nat) (g : Re.captures)
    (j : nat) (rest : list (Re.captures * nat)) :
  k <= String.length s ->
  (forall i, i < k -> Re.rmatch p s i = []) ->
  Re.rmatch p s k = (g, j) :: rest ->
  Re.search p s = Some (Re.MatchObj s k j g).
Proof.
  intros Hk H1 H2. unfold Re.search.
  replace (S (String.length s)) with (k + S (String.length s - k)) by lia.
  rewrite List.seq_app. simpl.
  apply (search_at_first p s _ _ k g j rest); [|exact H2].
  intros i Hi. apply in_seq in Hi. apply H1. lia.
Qed.

(** What [search] returns is a match of the pattern in the string. *)
Lemma search_at_Some (p : Re.regex) (s : string) (starts : list nat)
    (m : Re.match_obj) :
  Re.search_at p s starts = Some m ->
  Re.subject m = s
  /\ In (Re.groups m, Re.m_end m) (Re.rmatch p s (Re.m_start m)).
Proof.
  induction starts as [|i rest IH]; simpl; [discriminate|].
  destruct (Re.rmatch p s i) as [|[g j] l] eqn:E; [exact IH|].
  intros [= <-]. simpl. rewrite E. split; [reflexivity|left; reflexivity].
Qed.

(** ** [get_date]: errors, dates, the text around a match *)

Lemma match_Some (p : Re.regex) (s : string) (m : Re.match_obj) :
  Re.match_ p s = Some m ->
  In (Re.groups m, Re.m_end m) (Re.rmatch p s 0).
Proof.
  unfold Re.match_. destruct (Re.rmatch p s 0) as [|[g j] l]; [discriminate|].
  intros [= <-]. left. reflexivity.
Qed.

Lemma group_defined (p : Re.regex) (s : string) (i : nat) (m : Re.match_obj)
    (name : string) :
  In (Re.groups m, Re.m_end m) (Re.rmatch p s i) ->
  defines name p = true ->
  exists t, Re.group m name = Ok t.
Proof.
  intros Hin Hd. destruct (defines_lookup name s p Hd _ _ _ Hin) as [[a b] Hsp].
  unfold Re.group. rewrite Hsp. eauto.
Qed.

Lemma check_date_fields_cases (y m d : Z) :
  match check_date_fields y m d with
  | Ok _ => calendar_date (Date y m d)
  | Raise e => exists msg, e = ValueError msg
  end.
Proof.
  unfold check_date_fields, calendar_date. simpl.
  destruct ((1 <=? y) && (y <=? 9999))%Z eqn:Ey; simpl; [|eauto].
  destruct ((1 <=? m) && (m <=? 12))%Z eqn:Em; simpl; [|eauto].
  destruct ((1 <=? d) && (d <=? days_in_month y m))%Z eqn:Ed; simpl; [|eauto].
  apply andb_true_iff in Ey as [? ?], Em as [? ?], Ed as [? ?]. lia.
Qed.

Lemma check_time_fields_cases (h mi s : Z) :
  match check_time_fields h mi s with
  | Ok _ => True
  | Raise e => exists msg, e = ValueError msg
  end.
Proof.
  unfold check_time_fields.
  repeat match goal with |- context [if ?b then _ else _] => destruct b end;
    simpl; eauto.
Qed.

(** [strptime] returns a date of the calendar or raises [ValueError]. *)
Lemma strptime_cases (data_string : string) :
  match Strptime.strptime data_string with
  | Ok dt => calendar_date (date_of dt)
  | Raise e => exists msg, e = ValueError msg
  end.
Proof.
  unfold Strptime.strptime.
  destruct (Re.match_ Strptime.format_regex data_string) as [found|] eqn:Hm;
    [|eauto].
  destruct (negb _); [eauto|].
  apply match_Some in Hm.
  destruct (group_defined _ _ _ _ "Y" Hm eq_refl) as [Y ->].
  destruct (group_defined _ _ _ _ "m" Hm eq_refl) as [m ->].
  destruct (group_defined _ _ _ _ "d" Hm eq_refl) as [d ->].
  destruct (group_defined _ _ _ _ "H" Hm eq_refl) as [H ->].
  destruct (group_defined _ _ _ _ "M" Hm eq_refl) as [M ->].
  destruct (group_defined _ _ _ _ "S" Hm eq_refl) as [S ->].
  cbn [bindR].
  pose proof (check_date_fields_cases (int_of Y) (int_of m) (int_of d)) as Hd.
  destruct (check_date_fields (int_of Y) (int_of m) (int_of d)); [|exact Hd].
  cbn [bindR].
  pose proof (check_time_fields_cases (int_of H) (int_of M) (int_of S)) as Ht.
  destruct (check_time_fields (int_of H) (int_of M) (int_of S)); [|exact Ht].
  exact Hd.
Qed.

(** [get_date], once the search is done: the four groups it reads are
    always there. *)
Lemma get_date_cases (filename : string) (start_only : bool) :
  (Re.search p0 filename = None
   /\ get_date filename start_only = Raise (ValueError "Unknown pattern"))
  \/ exists m sd st ed et,
       Re.search p0 filename = Some m
       /\ Re.group m "start_date" = Ok sd
       /\ Re.group m "start_time" = Ok st
       /\ Re.group m "end_date" = Ok ed
       /\ Re.group m "end_time" = Ok et
       /\ get_date filename start_only
          = (start_dt <-- Strptime.strptime (sd ++ "T" ++ st);;
             if negb start_only then
               end_dt <-- Strptime.strptime (ed ++ "T" ++ et);;
               Ok (StartEnd (date_of start_dt) (date_of end_dt))
             else Ok (Start (date_of start_dt)))%result.
Proof.
  unfold get_date. destruct (Re.search p0 filename) as [m|] eqn:Hs.
  - right. apply search_at_Some in Hs as [_ Hin].
    destruct (group_defined _ _ _ _ "start_date" Hin eq_refl) as [sd Hsd].
    destruct (group_defined _ _ _ _ "start_time" Hin eq_refl) as [st Hst].
    destruct (group_defined _ _ _ _ "end_date" Hin eq_refl) as [ed Hed].
    destruct (group_defined _ _ _ _ "end_time" Hin eq_refl) as [et Het].
    exists m, sd, st, ed, et. rewrite Hsd, Hst, Hed, Het.
    repeat (split; [reflexivity|]). reflexivity.
  - left. split; reflexivity.
Qed.

(** X1: whatever the string, the only exception that [get_date] raises is
    [ValueError]: the groups it asks for are defined by every match of its
    pattern, and [strptime] fails with [ValueError] only. *)
Theorem get_date_raises_only_ValueError (filename : string)
    (start_only : bool) (e : exn) :
  get_date filename start_only = Raise e -> exists msg, e = ValueError msg.
Proof.
  destruct (get_date_cases filename start_only)
    as [[_ ->]|(m & sd & st & ed & et & _ & _ & _ & _ & _ & ->)].
  - intros [= <-]. eauto.
  - pose proof (strptime_cases (sd ++ "T" ++ st)) as H1.
    destruct (Strptime.strptime (sd ++ "T" ++ st)) as [dt|e1]; cbn [bindR].
    2: { intros [= <-]. exact H1. }
    destruct (negb start_only); [|discriminate].
    pose proof (strptime_cases (ed ++ "T" ++ et)) as H2.
    destruct (Strptime.strptime (ed ++ "T" ++ et)) as [dt2|e2]; cbn [bindR].
    + discriminate.
    + intros [= <-]. exact H2.
Qed.

(** X2: every date that [get_date] returns is a date of the calendar: year
    1 to 9999, month 1 to 12, and a day that the month has in that year. *)
Theorem get_date_returns_calendar_dates (filename : string)
    (start_only : bool) (r : dates) :
  get_date filename start_only = Ok r ->
  match r with
  | Start d => calendar_date d
  | StartEnd d1 d2 => calendar_date d1 /\ calendar_date d2
  end.
Proof.
  destruct (get_date_cases filename start_only)
    as [[_ ->]|(m & sd & st & ed & et & _ & _ & _ & _ & _ & ->)];
    [discriminate|].
  pose proof (strptime_cases (sd ++ "T" ++ st)) as H1.
  destruct (Strptime.strptime (sd ++ "T" ++ st)) as [dt|e1]; cbn [bindR];
    [|discriminate].
  destruct (negb start_only).
  - pose proof (strptime_cases (ed ++ "T" ++ et)) as H2.
    destruct (Strptime.strptime (ed ++ "T" ++ et)) as [dt2|e2]; cbn [bindR];
      [|discriminate].
    intros [= <-]. split; assumption.
  - intros [= <-]. exact H1.
Qed.

(** X3: the start date does not depend on [start_only]. When the pair is
    returned, the call for the start alone returns its first component; and
    when the start alone is returned, the call for the pair returns a pair
    with that start or raises [ValueError], for the end fields are read
    only then. *)
Theorem get_date_start_only_agrees (filename : string) :
  (forall d e, get_date filename false = Ok (StartEnd d e) ->
               get_date filename true = Ok (Start d))
  /\ (forall d, get_date filename true = Ok (Start d) ->
        (exists e, get_date filename false = Ok (StartEnd d e))
        \/ (exists msg, get_date filename false = Raise (ValueError msg)))
  /\ (forall d e, get_date filename true <> Ok (StartEnd d e))
  /\ (forall d, get_date filename false <> Ok (Start d)).
Proof.
  destruct (get_date_cases filename true)
    as [[Hs Ht]|(m & sd & st & ed & et & Hs & Hsd & Hst & Hed & Het & Ht)].
  { rewrite Ht.
    destruct (get_date_cases filename false)
      as [[_ Hf]|(m' & sd' & st' & ed' & et' & Hs' & _)]; [|congruence].
    rewrite Hf. repeat split; intros; discriminate. }
  destruct (get_date_cases filename false)
    as [[Hs' _]|(m' & sd' & st' & ed' & et' & Hs' & Hsd' & Hst' & Hed' & Het' & Hf)];
    [congruence|].
  rewrite Ht, Hf.
  rewrite Hs in Hs'. injection Hs' as <-.
  rewrite Hsd in Hsd'. rewrite Hst in Hst'. rewrite Hed in Hed'.
  rewrite Het in Het'.
  injection Hsd' as <-. injection Hst' as <-. injection Hed' as <-.
  injection Het' as <-.
  destruct (Strptime.strptime (sd ++ "T" ++ st)) as [dt|e1]; cbn [bindR negb].
  2: { repeat split; intros; discriminate. }
  pose proof (strptime_cases (ed ++ "T" ++ et)) as H2.
  destruct (Strptime.strptime (ed ++ "T" ++ et)) as [dt2|e2]; cbn [bindR].
  - repeat split; try (intros; discriminate).
    + intros d e [= <- _]. reflexivity.
    + intros d [= <-]. left. eauto.
  - destruct H2 as [msg ->].
    repeat split; try (intros; discriminate).
    intros d [= <-]. right. eauto.
Qed.

(** X5: [get_date] returns dates only for a string that has a line break,
    at the position where the match of its pattern starts. *)
Theorem get_date_needs_line_break (filename : string) (start_only : bool)
    (r : dates) :
  get_date filename start_only = Ok r ->
  exists i, String.get i filename = Some "010"%char.
Proof.
  destruct (get_date_cases filename start_only)
    as [[_ ->]|(m & sd & st & ed & et & Hs & _)]; [discriminate|].
  intros _. apply search_at_Some in Hs as [_ Hin].
  exists (Re.m_start m).
  destruct (String.get (Re.m_start m) filename) as [c|] eqn:Hc.
  - destruct (Ascii.eqb c "010") eqn:E.
    + apply Ascii.eqb_eq in E. subst c. reflexivity.
    + rewrite p0_needs_nl in Hin; [destruct Hin|].
      rewrite Hc. intros [= ->]. rewrite Ascii.eqb_refl in E. discriminate.
  - rewrite p0_needs_nl in Hin; [destruct Hin|]. rewrite Hc. discriminate.
Qed.

Lemma string_length_app (s t : string) :
  String.length (s ++ t) = String.length s + String.length t.
Proof. induction s as [|c s IH]; simpl; [reflexivity|]. rewrite IH. reflexivity. Qed.

Lemma lookup_group_shift (name : string) (n : nat) (g : Re.captures) :
  Re.lookup_group name (fst (shift_match n (g, 0)))
  = match Re.lookup_group name g with
    | Some (a, b) => Some (n + a, n + b)
    | None => None
    end.
Proof.
  unfold shift_match. simpl. induction g as [|[nm [a b]] g IH]; simpl;
    [reflexivity|].
  destruct (String.eqb nm name); [reflexivity|exact IH].
Qed.

(** X4: the text around a match is ignored. When the pattern matches at
    the start of [m], a prefix without line break and any suffix leave the
    outcome of [get_date] as it is for [m] alone. *)
Theorem get_date_ignores_surrounding_text (pre m post : string)
    (start_only : bool) :
  (forall i, String.get i pre <> Some "010"%char) ->
  Re.rmatch p0 m 0 <> [] ->
  get_date (pre ++ m ++ post) start_only = get_date m start_only.
Proof.
  intros Hpre Hm.
  destruct (Re.rmatch p0 m 0) as [|[g j] rest] eqn:E0; [congruence|]. clear Hm.
  assert (width p0 = Some 175) as Hw by (vm_compute; reflexivity).
  assert (In (g, j) (Re.rmatch p0 m 0)) as Hin by (rewrite E0; left; reflexivity).
  destruct (rmatch_bounds m p0 _ _ _ Hin) as (_ & Hj & Hg).
  specialize (Hj (Nat.le_0_l _)).
  pose proof (rmatch_width m p0 _ _ _ _ Hw Hin) as Hj175. simpl in Hj175.
  (* the match in [m] alone *)
  assert (Re.search p0 m = Some (Re.MatchObj m 0 j g)) as Hs1.
  { apply (search_first p0 m 0 g j rest); [lia|intros i Hi; lia|exact E0]. }
  (* the match in the longer string *)
  assert (Re.rmatch p0 (pre ++ m ++ post) (String.length pre)
          = List.map (shift_match (String.length pre)) ((g, j) :: rest)) as E1.
  { rewrite <- E0. rewrite <- (Nat.add_0_r (String.length pre)) at 1.
    rewrite rmatch_app_r. f_equal.
    apply (rmatch_app_l m post p0 175 0 Hw). lia. }
  assert (Re.search p0 (pre ++ m ++ post)
          = Some (Re.MatchObj (pre ++ m ++ post) (String.length pre)
                    (String.length pre + j)
                    (fst (shift_match (String.length pre) (g, 0))))) as Hs2.
  { apply (search_first p0 _ _ _ _
             (List.map (shift_match (String.length pre)) rest)).
    - rewrite string_length_app. lia.
    - intros i Hi. apply p0_needs_nl. rewrite get_app_l by exact Hi.
      apply Hpre.
    - exact E1. }
  (* the groups have the same text *)
  assert (forall name,
            Re.group (Re.MatchObj (pre ++ m ++ post) (String.length pre)
                        (String.length pre + j)
                        (fst (shift_match (String.length pre) (g, 0)))) name
            = Re.group (Re.MatchObj m 0 j g) name) as Hgroup.
  { intros name. unfold Re.group. cbn [Re.groups Re.subject].
    rewrite lookup_group_shift.
    destruct (Re.lookup_group name g) as [[a b]|] eqn:El; [|reflexivity].
    destruct (lookup_group_In _ _ _ El) as [n Hn].
    destruct (Hg _ _ _ Hn) as (_ & Hab & Hbj).
    replace (String.length pre + b - (String.length pre + a)) with (b - a)
      by lia.
    rewrite substring_app_r, substring_app_l by lia. reflexivity. }
  unfold get_date. rewrite Hs1, Hs2, !Hgroup. reflexivity.
Qed.

(** ** [ts_extract]: requests, checks, helpers *)

Lemma check_polar_list_first (l : list string) (p : string) :
  List.find (fun p => negb (str_in p POLARIZATIONS)) l = Some p ->
  check_polar_list l = Raise (ValueError (unknown_polarization p)).
Proof.
  induction l as [|x l IH]; cbn [List.find check_polar_list]; [discriminate|].
  destruct (negb (str_in x POLARIZATIONS)).
  - intros [= ->]. reflexivity.
  - exact IH.
Qed.

Lemma check_polar_list_ok (l : list string) :
  check_polar_list l = Ok tt -> forall p, In p l -> In p POLARIZATIONS.
Proof.
  induction l as [|x l IH]; cbn [check_polar_list]; [intros _ p []|].
  destruct (str_in x POLARIZATIONS) eqn:E; cbn [negb]; [|discriminate].
  intros H p [<-|Hp]; [apply str_in_spec, E|exact (IH H p Hp)].
Qed.

Lemma check_polar_bands (polar : polar_val) (p : list string) :
  check_polar polar = Ok p ->
  p = match polar with
      | PolarNone => POLARIZATIONS
      | PolarList l => l
      | PolarStr x => [x]
      end
  /\ forall l, polar = PolarList l -> forall x, In x l -> In x POLARIZATIONS.
Proof.
  destruct polar as [|l|x]; cbn [check_polar].
  - intros [= <-]. split; [reflexivity|discriminate].
  - destruct (check_polar_list l) as [[]|e] eqn:E; cbn [bindR]; [|discriminate].
    intros [= <-]. split; [reflexivity|].
    intros l' [= <-]. exact (check_polar_list_ok l E).
  - intros [= <-]. split; [reflexivity|discriminate].
Qed.

Lemma reducer_of_stats_name (stats : string) (r : reducer) :
  reducer_of_stats stats = Ok r -> stats = reducer_name r.
Proof.
  unfold reducer_of_stats.
  destruct (String.eqb stats "mean") eqn:E1;
    [apply String.eqb_eq in E1; intros [= <-]; exact E1|].
  destruct (String.eqb stats "median") eqn:E2;
    [apply String.eqb_eq in E2; intros [= <-]; exact E2|].
  destruct (String.eqb stats "max") eqn:E3;
    [apply String.eqb_eq in E3; intros [= <-]; exact E3|].
  destruct (String.eqb stats "min") eqn:E4;
    [apply String.eqb_eq in E4; intros [= <-]; exact E4|].
  discriminate.
Qed.

Section ExtractMore.
Context {number : Type}.
Variable remote : computed number -> result (pyval number).
Variable simplify dictify :
  pyval number -> gmap loc (gmap string (pyval number)) ->
  result (list loc) * gmap loc (gmap string (pyval number)).

Implicit Types (a : args number) (w : world number) (q : computed number).

(** X6: a call sends at most one request, after the requests sent before,
    and never changes the clock. A call that returns has sent exactly one;
    a call that has sent none has raised and left the world as it was. *)
Theorem ts_extract_at_most_one_request a w :
  now (snd (ts_extract remote simplify dictify a w)) = now w
  /\ (requests (snd (ts_extract remote simplify dictify a w)) = requests w
      \/ exists q, requests (snd (ts_extract remote simplify dictify a w))
                   = requests w ++ [q])
  /\ (forall out, fst (ts_extract remote simplify dictify a w) = Ok out ->
        exists q, requests (snd (ts_extract remote simplify dictify a w))
                  = requests w ++ [q])
  /\ (requests (snd (ts_extract remote simplify dictify a w)) = requests w ->
        snd (ts_extract remote simplify dictify a w) = w
        /\ exists e, fst (ts_extract remote simplify dictify a w) = Raise e).
Proof.
  destruct (check_mode (mode a)) as [[]|e] eqn:H1.
  2: { rewrite (rejected_by_mode_check remote simplify dictify _ w _ H1).
       cbn [fst snd]. repeat split; eauto. discriminate. }
  destruct (check_polar (polar a)) as [p|e] eqn:H2.
  2: { rewrite (rejected_by_polar_check remote simplify dictify _ w _ H1 H2).
       cbn [fst snd]. repeat split; eauto. discriminate. }
  destruct (check_orbit (orbit a)) as [o|e] eqn:H3.
  2: { rewrite (rejected_by_orbit_check remote simplify dictify _ w _ _ H1 H2 H3).
       cbn [fst snd]. repeat split; eauto. discriminate. }
  destruct (is_Some_b (radius a) || is_Some_b (feature a)) eqn:H4.
  - rewrite (run_region_branch remote simplify dictify _ w _ _ H1 H2 H3 H4).
    destruct (reducer_of_stats (stats a)) as [fun_|e].
    2: { cbn [fst snd]. repeat split; eauto. discriminate. }
    destruct (region_geometry a) as [g|e].
    2: { cbn [fst snd]. repeat split; eauto. discriminate. }
    cbv zeta.
    match goal with |- context [remote ?q'] => set (q0 := q') end.
    destruct (remote q0) as [fc|[]]; try destruct (simplify fc (heap w));
      cbn [fst snd now requests sent];
      (split; [reflexivity|]); (split; [right; eauto|]);
      (split; [eauto|]); intros Hn; destruct (app_one_neq _ _ (eq_sym Hn)).
  - rewrite (run_point_branch remote simplify dictify _ w _ _ H1 H2 H3 H4).
    cbv zeta.
    match goal with |- context [remote ?q'] => set (q0 := q') end.
    destruct (remote q0) as [l|[]];
      try (destruct (dictify l (heap w)) as [[out|e] h]);
      cbn [fst snd now requests sent];
      (split; [reflexivity|]); (split; [right; eauto|]);
      (split; [eauto|]); intros Hn; destruct (app_one_neq _ _ (eq_sym Hn)).
Qed.

(** X7: the request of a call is over the collection COPERNICUS/S1_GRD,
    for the date interval from [start] to [end], filtered on the mode of
    the call, which is one of [MODES], and then on the orbit pass at most;
    the collection is bounded by the geometry of the computation, and the
    scale is 10. *)
Theorem ts_extract_request_shape a w q :
  requests (snd (ts_extract remote simplify dictify a w)) = requests w ++ [q] ->
  collection_name_of (computed_collection q) = "COPERNICUS/S1_GRD"
  /\ dates_of (computed_collection q) = [(start a, end_ a)]
  /\ filters_of (computed_collection q)
     = Filter_eq "instrumentMode" (mode a)
       :: List.map (Filter_eq "orbitProperties_pass") (orbit_filters q)
  /\ In (mode a) MODES
  /\ bounds_of (computed_collection q) = [computed_geometry q]
  /\ computed_scale q = 10%Z.
Proof.
  intros Hs.
  destruct (sent_request_inv remote simplify dictify _ _ _ Hs)
    as (p & o & H1 & H2 & H3 & Hq).
  assert (In (mode a) MODES) as Hmode.
  { apply str_in_spec. unfold check_mode in H1.
    destruct (str_in (mode a) MODES); [reflexivity|discriminate]. }
  destruct Hq as [[H4 (fun_ & g & H5 & H6 & ->)]|[H4 ->]];
    destruct o; repeat split; try reflexivity; exact Hmode.
Qed.

(** X8: with a valid mode, a list of polarizations that holds an element
    other than VV and VH makes the call raise [ValueError] with the message
    that names the first such element and the two allowed values; the world
    is as before the call, whatever [orbit] and [stats] are. *)
Theorem ts_extract_polar_list_rejected a w (l : list string) (p : string) :
  check_mode (mode a) = Ok tt ->
  polar a = PolarList l ->
  List.find (fun p => negb (str_in p POLARIZATIONS)) l = Some p ->
  ts_extract remote simplify dictify a w
  = (Raise (ValueError (unknown_polarization p)), w)
  /\ unknown_polarization p
     = ("Unknown polarization '" ++ p ++ "' (Must be one of ['VV', 'VH'])")%string.
Proof.
  intros H1 Hp Hf. split; [|reflexivity].
  apply rejected_by_polar_check; [exact H1|].
  rewrite Hp. cbn [check_polar]. rewrite (check_polar_list_first l p Hf).
  reflexivity.
Qed.

(** X9: the bands that the request selects are both polarizations when
    [polar] is [None], the list as it was given when [polar] is a list (in
    its order, with its repetitions, also when it is empty), and the single
    value otherwise; a list that reaches a request holds VV and VH only. *)
Theorem ts_extract_selected_bands a w q :
  requests (snd (ts_extract remote simplify dictify a w)) = requests w ++ [q] ->
  selectors_of (computed_collection q)
  = [match polar a with
     | PolarNone => ["VV"; "VH"]
     | PolarList l => l
     | PolarStr x => [x]
     end]
  /\ forall l, polar a = PolarList l -> forall x, In x l -> x = "VV" \/ x = "VH".
Proof.
  intros Hs.
  destruct (sent_request_inv remote simplify dictify _ _ _ Hs)
    as (p & o & H1 & H2 & H3 & Hq).
  destruct (check_polar_bands _ _ H2) as [-> Hl]. split.
  - destruct Hq as [[H4 (fun_ & g & H5 & H6 & ->)]|[H4 ->]];
      destruct o; reflexivity.
  - intros l Hp x Hx. destruct (Hl l Hp x Hx) as [<-|[<-|[]]]; auto.
Qed.

(** X10: in the region branch, with valid mode, polar, orbit and stats, a
    feature that is a dict without the key geometry makes the call raise
    [KeyError('geometry')], and one whose geometry is a dict without the key
    coordinates [KeyError('coordinates')]; no request is sent. *)
Theorem ts_extract_feature_missing_key a w p o fun_
    (d : gmap string (pyval number)) :
  check_mode (mode a) = Ok tt ->
  check_polar (polar a) = Ok p ->
  check_orbit (orbit a) = Ok o ->
  reducer_of_stats (stats a) = Ok fun_ ->
  feature a = Some (PDict d) ->
  (d !! "geometry" = None ->
   ts_extract remote simplify dictify a w = (Raise (KeyError "geometry"), w))
  /\ (forall g, d !! "geometry" = Some (PDict g) -> g !! "coordinates" = None ->
      ts_extract remote simplify dictify a w
      = (Raise (KeyError "coordinates"), w)).
Proof.
  intros H1 H2 H3 H5 Hf.
  assert (is_Some_b (radius a) || is_Some_b (feature a) = true) as H4
    by (rewrite Hf; apply orb_true_r).
  rewrite (run_region_branch remote simplify dictify _ w _ _ H1 H2 H3 H4), H5.
  unfold region_geometry. rewrite Hf. cbn [getitem]. split.
  - intros ->. reflexivity.
  - intros g -> Hc. cbn [bindR getitem]. rewrite Hc. reflexivity.
Qed.

(** X11: in the region branch the outcome of [simplify] is the outcome of
    the call: the list it returns, with the dict objects as it made them
    (no key is removed), or the exception it raises, of whatever class. *)
Theorem ts_extract_region_returns_simplify a w p o fun_ g fc :
  check_mode (mode a) = Ok tt ->
  check_polar (polar a) = Ok p ->
  check_orbit (orbit a) = Ok o ->
  is_Some_b (radius a) || is_Some_b (feature a) = true ->
  reducer_of_stats (stats a) = Ok fun_ ->
  region_geometry a = Ok g ->
  remote (map_reduce_region (select (filterBounds (sentinel_ic a o) g) p)
            fun_ g 10) = Ok fc ->
  fst (ts_extract remote simplify dictify a w) = fst (simplify fc (heap w))
  /\ heap (snd (ts_extract remote simplify dictify a w))
     = snd (simplify fc (heap w)).
Proof.
  intros H1 H2 H3 H4 H5 H6 Hq.
  rewrite (run_region_branch remote simplify dictify _ w _ _ H1 H2 H3 H4), H5, H6.
  cbv zeta. rewrite Hq. destruct (simplify fc (heap w)). split; reflexivity.
Qed.

(** X12: the geometry of the request is the point of [lon] and [lat] when
    neither radius nor feature is given, that point buffered by the radius
    when the radius alone is given, and the polygon of the coordinates of
    the feature when a feature is given. *)
Theorem ts_extract_geometry a w q :
  requests (snd (ts_extract remote simplify dictify a w)) = requests w ++ [q] ->
  match feature a, radius a with
  | Some f, _ =>
      exists g c, getitem f "geometry" = Ok g
                  /\ getitem g "coordinates" = Ok c
                  /\ computed_geometry q = Geometry_Polygon c
  | None, Some r =>
      computed_geometry q = buffer (Geometry_Point (lon a) (lat a)) (Some r)
  | None, None => computed_geometry q = Geometry_Point (lon a) (lat a)
  end.
Proof.
  intros Hs.
  destruct (sent_request_inv remote simplify dictify _ _ _ Hs)
    as (p & o & H1 & H2 & H3 & [[H4 (fun_ & g & H5 & H6 & ->)]|[H4 ->]]).
  - unfold region_geometry in H6. cbn [computed_geometry].
    destruct (feature a) as [f|].
    + destruct (getitem f "geometry") as [g'|e]; cbn [bindR] in H6;
        [|discriminate].
      destruct (getitem g' "coordinates") as [c|e] eqn:Hc; cbn [bindR] in H6;
        [|discriminate].
      injection H6 as <-. eauto.
    + destruct (radius a) as [r|]; [|discriminate H4].
      injection H6 as <-. reflexivity.
  - destruct (feature a); [rewrite orb_true_r in H4; discriminate|].
    destruct (radius a); [discriminate|]. reflexivity.
Qed.

(** X14: the request is a [getRegion] exactly when neither radius nor
    feature is given; otherwise it is a reduction over the region, with the
    reducer that [stats] names. *)
Theorem ts_extract_request_kind a w q :
  requests (snd (ts_extract remote simplify dictify a w)) = requests w ++ [q] ->
  match q with
  | getRegion _ _ _ => radius a = None /\ feature a = None
  | map_reduce_region _ fun_ _ _ =>
      (radius a <> None \/ feature a <> None) /\ stats a = reducer_name fun_
  end.
Proof.
  intros Hs.
  destruct (sent_request_inv remote simplify dictify _ _ _ Hs)
    as (p & o & H1 & H2 & H3 & [[H4 (fun_ & g & H5 & H6 & ->)]|[H4 ->]]).
  - split; [|exact (reducer_of_stats_name _ _ H5)].
    destruct (radius a); [left; discriminate|].
    destruct (feature a); [right; discriminate|discriminate H4].
  - destruct (radius a); [discriminate|].
    destruct (feature a); [discriminate|]. split; reflexivity.
Qed.

(** X15: in point mode an exception that [dictify] raises is the outcome of
    the call, of whatever class (the handler for [ee.EEException] is around
    the request only); the request has been sent, and the dict objects are
    as [dictify] left them. *)
Theorem ts_extract_dictify_raises a w p o l e h :
  check_mode (mode a) = Ok tt ->
  check_polar (polar a) = Ok p ->
  check_orbit (orbit a) = Ok o ->
  radius a = None -> feature a = None ->
  remote (getRegion
            (select (filterBounds (sentinel_ic a o)
                       (Geometry_Point (lon a) (lat a))) p)
            (Geometry_Point (lon a) (lat a)) 10) = Ok l ->
  dictify l (heap w) = (Raise e, h) ->
  ts_extract remote simplify dictify a w
  = (Raise e,
     World (now w) h
       (requests w
        ++ [getRegion
              (select (filterBounds (sentinel_ic a o)
                         (Geometry_Point (lon a) (lat a))) p)
              (Geometry_Point (lon a) (lat a)) 10])).
Proof.
  intros H1 H2 H3 Hr Hf Hq Hd.
  assert (is_Some_b (radius a) || is_Some_b (feature a) = false) as H4
    by (rewrite Hr, Hf; reflexivity).
  rewrite (run_point_branch remote simplify dictify _ w _ _ H1 H2 H3 H4).
  cbv zeta. rewrite Hq, Hd. reflexivity.
Qed.

(** X16: with a feature, [lon] and [lat] are not used: the call does the
    same whatever they are. *)
Theorem ts_extract_feature_ignores_point a w f :
  feature a = Some f ->
  forall x y, ts_extract remote simplify dictify (set_lon_lat x y a) w
              = ts_extract remote simplify dictify a w.
Proof.
  intros Hf x y. unfold ts_extract, set_lon_lat.
  cbn [mode polar orbit radius feature start end_ lon lat stats].
  rewrite Hf, !orb_true_r. reflexivity.
Qed.

End ExtractMore.

(** X13: the orbit check never lets the lookup in [Orbit] fail. It returns
    no name for no orbit, the name of the member whose value was given,
    which is one of [ORBITS], the names that its message lists; and it
    raises [ValueError] with that message for every other value. *)
Theorem check_orbit_cases (orbit : option Z) :
  match check_orbit orbit with
  | Ok None => orbit = None
  | Ok (Some name) =>
      exists m, orbit = Some (Orbit_value m) /\ Orbit_call (Orbit_value m) = Ok m
                /\ name = Orbit_name m /\ In name ORBITS
  | Raise e =>
      exists o, orbit = Some o /\ o <> 0%Z /\ o <> 1%Z
                /\ e = ValueError (unknown_orbit o)
  end.
Proof.
  destruct orbit as [o|]; [|reflexivity]. unfold check_orbit.
  destruct (int_in o [0; 1]%Z) eqn:E; cbn [negb].
  - apply int_in_spec in E as [<-|[<-|[]]]; cbn.
    + exists ASCENDING. repeat split. left. reflexivity.
    + exists DESCENDING. repeat split. right. left. reflexivity.
  - exists o. repeat split.
    + intros ->. discriminate E.
    + intros ->. discriminate E.
Qed.

(** ** Witnesses of the further properties *)

Lemma get_date_raises_only_ValueError_witness :
  get_date spaced_id_bad_end false
  = Raise (ValueError "day is out of range for month")
  /\ exists msg, ValueError "day is out of range for month" = ValueError msg.
Proof.
  split; [vm_compute; reflexivity|].
  apply (get_date_raises_only_ValueError spaced_id_bad_end false).
  vm_compute. reflexivity.
Defined.

Lemma get_date_returns_calendar_dates_witness :
  calendar_date (Date 2019 1 5) /\ calendar_date (Date 2019 1 6).
Proof.
  apply (get_date_returns_calendar_dates spaced_path false
           (StartEnd (Date 2019 1 5) (Date 2019 1 6))).
  vm_compute. reflexivity.
Defined.

Lemma get_date_start_only_agrees_witness :
  get_date spaced_path true = Ok (Start (Date 2019 1 5))
  /\ ((exists e, get_date spaced_id_bad_end false
                 = Ok (StartEnd (Date 2019 1 5) e))
      \/ (exists msg, get_date spaced_id_bad_end false
                      = Raise (ValueError msg))).
Proof.
  split.
  - apply (proj1 (get_date_start_only_agrees spaced_path)
             (Date 2019 1 5) (Date 2019 1 6)).
    vm_compute. reflexivity.
  - apply (proj1 (proj2 (get_date_start_only_agrees spaced_id_bad_end))
             (Date 2019 1 5)).
    vm_compute. reflexivity.
Defined.

Lemma get_date_ignores_surrounding_text_witness :
  get_date ("/data/" ++ spaced_id ++ ".SAFE") false = get_date spaced_id false.
Proof.
  apply (get_date_ignores_surrounding_text "/data/" spaced_id ".SAFE" false).
  - intros i. do 6 (destruct i as [|i]; [discriminate|]). discriminate.
  - vm_compute. discriminate.
Defined.

Lemma get_date_needs_line_break_witness :
  exists i, String.get i spaced_path = Some "010"%char.
Proof.
  apply (get_date_needs_line_break spaced_path true (Start (Date 2019 1 5))).
  vm_compute. reflexivity.
Defined.

Lemma ts_extract_at_most_one_request_witness :
  exists q,
    requests (snd (ts_extract platform_sample sample_simplify sample_dictify
                     call_point world0))
    = requests world0 ++ [q].
Proof.
  apply (proj1 (proj2 (proj2 (ts_extract_at_most_one_request platform_sample
                                sample_simplify sample_dictify call_point
                                world0)))
           [2%positive; 3%positive]).
  reflexivity.
Defined.

Lemma ts_extract_request_shape_witness :
  exists q,
    requests (snd (ts_extract platform_sample sample_simplify sample_dictify
                     call_radius_descending world0)) = [q]
    /\ collection_name_of (computed_collection q) = "COPERNICUS/S1_GRD"
    /\ dates_of (computed_collection q)
       = [(Datetime 2019 1 1 0 0 0 0, Datetime 2019 6 1 0 0 0 0)]
    /\ filters_of (computed_collection q)
       = Filter_eq "instrumentMode" "IW"
         :: List.map (Filter_eq "orbitProperties_pass") (orbit_filters q)
    /\ In "IW" MODES
    /\ bounds_of (computed_collection q) = [computed_geometry q]
    /\ computed_scale q = 10%Z.
Proof.
  eexists. split; [reflexivity|].
  apply (ts_extract_request_shape platform_sample sample_simplify
           sample_dictify call_radius_descending world0 _ eq_refl).
Defined.

Lemma ts_extract_polar_list_rejected_witness :
  ts_extract platform_sample sample_simplify sample_dictify
    call_polar_list_HH world0
  = (Raise (ValueError
       "Unknown polarization 'HH' (Must be one of ['VV', 'VH'])"), world0).
Proof.
  apply (ts_extract_polar_list_rejected platform_sample sample_simplify
           sample_dictify call_polar_list_HH world0 ["VV"; "HH"; "XX"] "HH");
    reflexivity.
Defined.

Lemma ts_extract_selected_bands_witness :
  exists q,
    requests (snd (ts_extract platform_sample sample_simplify sample_dictify
                     call_polar_HH world0)) = [q]
    /\ selectors_of (computed_collection q) = [["HH"]].
Proof.
  eexists. split; [reflexivity|].
  apply (proj1 (ts_extract_selected_bands platform_sample sample_simplify
                  sample_dictify call_polar_HH world0 _ eq_refl)).
Defined.

Lemma ts_extract_feature_missing_key_witness :
  ts_extract platform_sample sample_simplify sample_dictify
    (call_with_feature feature_without_geometry) world0
  = (Raise (KeyError "geometry"), world0)
  /\ ts_extract platform_sample sample_simplify sample_dictify
       (call_with_feature feature_without_coordinates) world0
     = (Raise (KeyError "coordinates"), world0).
Proof.
  split.
  - apply (proj1 (ts_extract_feature_missing_key platform_sample
                    sample_simplify sample_dictify
                    (call_with_feature feature_without_geometry) world0
                    ["VV"; "VH"] None Reducer_max
                    {[ "type" := PStr "Feature" ]}
                    eq_refl eq_refl eq_refl eq_refl eq_refl)).
    reflexivity.
  - apply (proj2 (ts_extract_feature_missing_key platform_sample
                    sample_simplify sample_dictify
                    (call_with_feature feature_without_coordinates) world0
                    ["VV"; "VH"] None Reducer_max
                    {[ "type" := PStr "Feature";
                       "geometry" := PDict {[ "type" := PStr "Polygon" ]} ]}
                    eq_refl eq_refl eq_refl eq_refl eq_refl)
             {[ "type" := PStr "Polygon" ]});
      reflexivity.
Defined.

Lemma ts_extract_region_returns_simplify_witness :
  fst (ts_extract platform_features sample_simplify sample_dictify
         call_radius_descending world0)
  = fst (sample_simplify sample_features (heap world0))
  /\ heap (snd (ts_extract platform_features sample_simplify sample_dictify
                  call_radius_descending world0))
     = snd (sample_simplify sample_features (heap world0)).
Proof.
  apply (ts_extract_region_returns_simplify platform_features sample_simplify
           sample_dictify call_radius_descending world0 ["VV"; "VH"]
           (Some "DESCENDING") Reducer_mean
           (buffer (Geometry_Point (Some (Decimal (-377) (-1)))
                      (Some (Decimal (-46) (-1))))
                   (Some (Decimal 500 0)))
           sample_features);
    reflexivity.
Defined.

Lemma ts_extract_geometry_witness :
  exists q,
    requests (snd (ts_extract platform_sample sample_simplify sample_dictify
                     call_radius_descending world0)) = [q]
    /\ computed_geometry q
       = buffer (Geometry_Point (Some (Decimal (-377) (-1)))
                   (Some (Decimal (-46) (-1))))
                (Some (Decimal 500 0)).
Proof.
  eexists. split; [reflexivity|].
  apply (ts_extract_geometry platform_sample sample_simplify sample_dictify
           call_radius_descending world0 _ eq_refl).
Defined.

Lemma ts_extract_request_kind_witness :
  (radius call_point = None /\ feature call_point = None)
  /\ ((radius call_radius_descending <> None
       \/ feature call_radius_descending <> None)
      /\ stats call_radius_descending = reducer_name Reducer_mean).
Proof.
  split.
  - apply (ts_extract_request_kind platform_sample sample_simplify
             sample_dictify call_point world0 _ eq_refl).
  - apply (ts_extract_request_kind platform_sample sample_simplify
             sample_dictify call_radius_descending world0 _ eq_refl).
Defined.

Lemma ts_extract_dictify_raises_witness :
  fst (ts_extract platform_sample sample_simplify failing_helper
         call_point world0)
  = Raise (EEException "raised by the helper").
Proof.
  rewrite (ts_extract_dictify_raises platform_sample sample_simplify
             failing_helper call_point world0 ["VV"; "VH"] None sample_table
             (EEException "raised by the helper") ∅
             eq_refl eq_refl eq_refl eq_refl eq_refl eq_refl eq_refl).
  reflexivity.
Defined.

Lemma ts_extract_feature_ignores_point_witness :
  ts_extract platform_sample sample_simplify sample_dictify
    (set_lon_lat None None (call_with_feature square_feature)) world0
  = ts_extract platform_sample sample_simplify sample_dictify
      (call_with_feature square_feature) world0.
Proof.
  apply (ts_extract_feature_ignores_point platform_sample sample_simplify
           sample_dictify (call_with_feature square_feature) world0
           square_feature eq_refl).
Defined.
